(** * spectre: the paste store (paste.go)

    A shallow embedding of [paste.go]: paste identifiers, the
    filesystem-backed paste store (New / Get / Save / Destroy), the
    optionally enciphered content streams and the stream wrappers,
    followed by the properties of the specification that were checked
    against it.

    Conventions.
    - A Go [string] is a Rocq [string]; a Go [[]byte] is a [list byte];
      a nil slice is [None] where the code tests for nil.
    - An [error] value is [option error] ([None] is Go's nil).
    - Stateful code runs in the monad [M] over a [World] (file system,
      heap of [Paste] values, log of the calls made to the outside).
    - A run-time panic is the result [Panicked]. *)

From Stdlib Require Import ZArith NArith List String Ascii Lia.
From Stdlib Require Import Strings.Byte.
From stdpp Require Import base option list gmap strings.

Local Open Scope string_scope.
Local Open Scope list_scope.

(** ** Bytes *)

#[global] Instance byte_eq_dec : EqDecision byte := Byte.byte_eq_dec.

(** Go's [byte] arithmetic wraps modulo 256. *)
Definition byte_of_N (n : N) : byte :=
  match Byte.of_N (n mod 256) with
  | Some b => b
  | None => "000"%byte
  end.

(** [a ^ b] on bytes. *)
Definition byte_xor (a b : byte) : byte :=
  byte_of_N (N.lxor (Byte.to_N a) (Byte.to_N b)).

(** ** encoding/base32 *)

Module base32.

(** An [Encoding] is determined by its 32-symbol alphabet. *)
Record Encoding := { encode : list byte }.

Definition NewEncoding (encoder : string) : Encoding :=
  {| encode := list_byte_of_string encoder |}.

Definition padChar : byte := "="%byte.

(** The eight 5-bit groups of a 5-byte quantum, as [Encode] unpacks
    them (a missing source byte contributes zero bits). *)
Definition unpack (s0 s1 s2 s3 s4 : N) : list N :=
  [ N.shiftr s0 3;
    N.lor (N.land (N.shiftr s1 6) 31) (N.land (N.shiftl s0 2) 31);
    N.land (N.shiftr s1 1) 31;
    N.lor (N.land (N.shiftr s2 4) 31) (N.land (N.shiftl s1 4) 31);
    N.lor (N.shiftr s3 7) (N.land (N.shiftl s2 1) 31);
    N.land (N.shiftr s3 2) 31;
    N.lor (N.shiftr s4 5) (N.land (N.shiftl s3 3) 31);
    N.land s4 31 ].

Definition symbol (enc : Encoding) (q : N) : byte :=
  nth (N.to_nat q) (encode enc) padChar.

(** [Encode]: full quanta give 8 symbols; the final, shorter quantum
    is padded with [=] to 8 characters. *)
Fixpoint Encode (enc : Encoding) (src : list byte) : list byte :=
  match src with
  | [] => []
  | [s0] =>
      map (symbol enc) (firstn 2 (unpack (Byte.to_N s0) 0 0 0 0))
        ++ repeat padChar 6
  | [s0; s1] =>
      map (symbol enc)
        (firstn 4 (unpack (Byte.to_N s0) (Byte.to_N s1) 0 0 0))
        ++ repeat padChar 4
  | [s0; s1; s2] =>
      map (symbol enc)
        (firstn 5 (unpack (Byte.to_N s0) (Byte.to_N s1) (Byte.to_N s2) 0 0))
        ++ repeat padChar 3
  | [s0; s1; s2; s3] =>
      map (symbol enc)
        (firstn 7 (unpack (Byte.to_N s0) (Byte.to_N s1) (Byte.to_N s2)
                     (Byte.to_N s3) 0))
        ++ repeat padChar 1
  | s0 :: s1 :: s2 :: s3 :: s4 :: rest =>
      map (symbol enc)
        (unpack (Byte.to_N s0) (Byte.to_N s1) (Byte.to_N s2)
           (Byte.to_N s3) (Byte.to_N s4))
        ++ Encode enc rest
  end.

Definition EncodeToString (enc : Encoding) (src : list byte) : string :=
  string_of_list_byte (Encode enc src).

End base32.

(** [var base32Encoder = base32.NewEncoding("abcdefghjkmnopqrstuvwxyz23456789")] *)
Definition alphabet : string := "abcdefghjkmnopqrstuvwxyz23456789".
Definition base32Encoder : base32.Encoding := base32.NewEncoding alphabet.

(** [const ENCRYPTION_VERSION string = "1"] *)
Definition ENCRYPTION_VERSION : string := "1".

(** ** Identifiers, errors, pastes *)

Definition PasteID := string.
Definition PasteID_String (id : PasteID) : string := id.
Definition PasteIDFromString (s : string) : PasteID := s.

Inductive Errno := ENOENT | EACCES | ENODATA.

Inductive error :=
| PasteEncryptedError (ID : PasteID)
| PasteInvalidKeyError (ID : PasteID)
| PasteNotFoundError (ID : PasteID)
| CorruptInputError (offset : nat)          (* encoding/base32 *)
| KeySizeError (size : nat)                 (* crypto/aes *)
| PathError (op path : string) (e : Errno)  (* os, xattr *)
| ErrClosed                                 (* os: file already closed *)
| EOF                                       (* io.EOF *)
| ErrShortWrite                             (* io.ErrShortWrite *)
| ErrRandom (msg : string).                 (* crypto/rand source failure *)

#[global] Instance Errno_eq_dec : EqDecision Errno.
Proof. solve_decision. Defined.
#[global] Instance error_eq_dec : EqDecision error.
Proof. solve_decision. Defined.

(** [func (e PasteEncryptedError) Error() string] and its siblings. *)
Definition Error_string (e : error) : string :=
  match e with
  | PasteEncryptedError id => "Paste " ++ PasteID_String id ++ " is encrypted."
  | PasteInvalidKeyError _ => ""
  | PasteNotFoundError id => "Paste " ++ PasteID_String id ++ " was not found."
  | _ => ""
  end.

(** [time.Time], as seconds; [zeroTime] is the zero value. *)
Definition Time := Z.
Definition zeroTime : Time := 0%Z.

(** [type PasteCallback], a function on a paste pointer. A callback is code of the
    collaborator; the model identifies it by name and records each
    call in the log. *)
Inductive PasteCallback :=
| noopPasteCallback
| externalCallback (name : string).

Record FilesystemPasteStore := {
  PasteUpdateCallback : PasteCallback;
  PasteDestroyCallback : PasteCallback;
  path : string;
}.

Definition NewFilesystemPasteStore (path : string) : FilesystemPasteStore :=
  {| path := path;
     PasteUpdateCallback := noopPasteCallback;
     PasteDestroyCallback := noopPasteCallback |}.

(** [type Paste struct]. The [store] field is the back-reference to
    the store that produced the paste ([FilesystemPasteStore] is the
    only implementation of the [PasteStore] interface). *)
Record Paste := {
  ID : PasteID;
  Language : string;
  store : FilesystemPasteStore;
  mtime : Time;
  Encrypted : bool;
  encryptionKey : option (list byte);
}.

(** A [*Paste] is an address in the heap of pastes. *)
Definition loc := nat.

(** ** The world: file system, heap, log *)

Record File := {
  f_data : list byte;                 (* content *)
  f_xattr : gmap string (list byte);  (* extended attributes *)
  f_mtime : Time;
  f_writable : bool;                  (* write permission *)
}.

(** The calls that act on the outside: those that change the file
    system or close a file, and the callbacks. Calls that only read
    ([os.Stat], [os.Open], [Getxattr], [Read]) are not recorded. *)
Inductive Event :=
| EvCreate (name : string)
| EvWrite (name : string) (offset : nat) (data : list byte)
| EvClose (name : string)
| EvRemove (name : string)
| EvSetxattr (name attr : string) (data : list byte)
| EvPasteUpdateCallback (cb : PasteCallback) (p : loc)
| EvPasteDestroyCallback (cb : PasteCallback) (p : loc).

Record World := {
  fs : gmap string File;
  heap : list Paste;
  trace : list Event;   (* calls made to the outside, oldest first *)
  now : Time;
}.

Definition set_fs (f : gmap string File) (w : World) : World :=
  {| fs := f; heap := heap w; trace := trace w; now := now w |}.
Definition set_heap (h : list Paste) (w : World) : World :=
  {| fs := fs w; heap := h; trace := trace w; now := now w |}.
Definition set_trace (t : list Event) (w : World) : World :=
  {| fs := fs w; heap := heap w; trace := t; now := now w |}.

(** ** The monad of stateful, possibly panicking code *)

Inductive Res (A : Type) :=
| Done (a : A) (w : World)
| Panicked (w : World).
Arguments Done {A} a w.
Arguments Panicked {A} w.

Definition M (A : Type) : Type := World -> Res A.

#[global] Instance M_ret : MRet M := fun A a w => Done a w.
#[global] Instance M_bind : MBind M := fun A B f m w =>
  match m w with
  | Done a w' => f a w'
  | Panicked w' => Panicked w'
  end.

(** A primitive step, given as a function of the world. *)
Definition step {A} (f : World -> Res A) : M A := f.

Definition panic {A} : M A := fun w => Panicked w.
Definition log (e : Event) : M unit :=
  fun w => Done tt (set_trace (trace w ++ [e]) w).

(** Heap of pastes: [&Paste{...}], [*p], [p.f = v]. Dereferencing an
    address that holds no paste is the nil-pointer panic. *)
Definition alloc (p : Paste) : M loc :=
  fun w => Done (length (heap w)) (set_heap (heap w ++ [p]) w).
Definition load (l : loc) : M Paste :=
  fun w => match heap w !! l with
           | Some p => Done p w
           | None => Panicked w
           end.
Definition modify (l : loc) (f : Paste -> Paste) : M unit :=
  fun w => match heap w !! l with
           | Some p => Done tt (set_heap (<[l := f p]> (heap w)) w)
           | None => Panicked w
           end.

Definition set_Language (s : string) (p : Paste) : Paste :=
  {| ID := ID p; Language := s; store := store p; mtime := mtime p;
     Encrypted := Encrypted p; encryptionKey := encryptionKey p |}.
Definition set_Encrypted (b : bool) (p : Paste) : Paste :=
  {| ID := ID p; Language := Language p; store := store p; mtime := mtime p;
     Encrypted := b; encryptionKey := encryptionKey p |}.
Definition set_encryptionKey (k : option (list byte)) (p : Paste) : Paste :=
  {| ID := ID p; Language := Language p; store := store p; mtime := mtime p;
     Encrypted := Encrypted p; encryptionKey := k |}.

(** ** package os *)

Record FileInfo := { ModTime : Time }.

(** An open [*os.File]: the file it names, the position, and whether
    it has been closed. Streams are not shared between goroutines and
    the file is addressed by name while the stream is open. *)
Record osFile := {
  of_name : string;
  of_offset : nat;
  of_closed : bool;
}.

Definition os_Stat (name : string) : M (option FileInfo * option error) :=
  fun w => match fs w !! name with
           | Some f => Done (Some {| ModTime := f_mtime f |}, None) w
           | None => Done (None, Some (PathError "stat" name ENOENT)) w
           end.

Definition os_Open (name : string) : M (option osFile * option error) :=
  fun w => match fs w !! name with
           | Some f =>
               Done (Some {| of_name := name; of_offset := 0;
                             of_closed := false |}, None) w
           | None => Done (None, Some (PathError "open" name ENOENT)) w
           end.

(** [os.Create]: create or truncate; extended attributes of an
    existing file survive the truncation. *)
Definition os_Create (name : string) : M (option osFile * option error) :=
  _ ← log (EvCreate name);
  step (fun w =>
    let h := {| of_name := name; of_offset := 0; of_closed := false |} in
    match fs w !! name with
    | Some f =>
        if f_writable f then
          Done (Some h, None)
            (set_fs (<[name := {| f_data := []; f_xattr := f_xattr f;
                                  f_mtime := now w;
                                  f_writable := true |}]> (fs w)) w)
        else Done (None, Some (PathError "open" name EACCES)) w
    | None =>
        Done (Some h, None)
          (set_fs (<[name := {| f_data := []; f_xattr := ∅;
                                f_mtime := now w;
                                f_writable := true |}]> (fs w)) w)
    end).

Definition os_Remove (name : string) : M (option error) :=
  _ ← log (EvRemove name);
  step (fun w =>
    match fs w !! name with
    | Some _ => Done None (set_fs (delete name (fs w)) w)
    | None => Done (Some (PathError "remove" name ENOENT)) w
    end).

(** Bytes [data] written at position [off] of [old]. *)
Definition write_at (old : list byte) (off : nat) (data : list byte)
  : list byte :=
  firstn off (old ++ repeat "000"%byte (off - length old))
    ++ data ++ skipn (off + length data) old.

Definition File_Write (f : osFile) (data : list byte)
  : M (nat * option error * osFile) :=
  _ ← log (EvWrite (of_name f) (of_offset f) data);
  step (fun w =>
    if of_closed f then Done (0, Some ErrClosed, f) w
    else match fs w !! of_name f with
         | Some file =>
             Done (length data, None,
                   {| of_name := of_name f;
                      of_offset := of_offset f + length data;
                      of_closed := false |})
               (set_fs (<[of_name f :=
                            {| f_data := write_at (f_data file) (of_offset f) data;
                               f_xattr := f_xattr file;
                               f_mtime := now w;
                               f_writable := f_writable file |}]> (fs w)) w)
         | None => Done (0, Some (PathError "write" (of_name f) ENOENT), f) w
         end).

(** [f.Read(buf)] with [len(buf) = n]: the bytes read, at most [n];
    [io.EOF] when nothing is left. *)
Definition File_Read (f : osFile) (n : nat)
  : M (list byte * option error * osFile) :=
  fun w =>
    if of_closed f then Done ([], Some ErrClosed, f) w
    else match fs w !! of_name f with
         | Some file =>
             let got := firstn n (skipn (of_offset f) (f_data file)) in
             match got, n with
             | [], S _ => Done ([], Some EOF, f) w
             | _, _ =>
                 Done (got, None,
                       {| of_name := of_name f;
                          of_offset := of_offset f + length got;
                          of_closed := false |}) w
             end
         | None => Done ([], Some (PathError "read" (of_name f) ENOENT), f) w
         end.

Definition File_Close (f : osFile) : M (option error * osFile) :=
  _ ← log (EvClose (of_name f));
  if of_closed f then mret (Some ErrClosed, f)
  else mret (None, {| of_name := of_name f; of_offset := of_offset f;
                      of_closed := true |}).

(** ** package xattr (github.com/DHowett/go-xattr)

    The file system supports extended attributes: setting one fails
    only on a missing file or on a file without write permission. *)

Definition xattr_Setxattr (name attr : string) (data : list byte)
  : M (option error) :=
  _ ← log (EvSetxattr name attr data);
  step (fun w =>
    match fs w !! name with
    | Some f =>
        if f_writable f then
          Done None
            (set_fs (<[name := {| f_data := f_data f;
                                  f_xattr := <[attr := data]> (f_xattr f);
                                  f_mtime := f_mtime f;
                                  f_writable := true |}]> (fs w)) w)
        else Done (Some (PathError "setxattr" name EACCES)) w
    | None => Done (Some (PathError "setxattr" name ENOENT)) w
    end).

Definition xattr_Getxattr (name attr : string)
  : M (list byte * option error) :=
  fun w => match fs w !! name with
           | Some f =>
               match f_xattr f !! attr with
               | Some v => Done (v, None) w
               | None => Done ([], Some (PathError "getxattr" name ENODATA)) w
               end
           | None => Done ([], Some (PathError "getxattr" name ENOENT)) w
           end.

(** [func putMetadata(fn string, name string, value string) error] *)
Definition putMetadata (fn name value : string) : M (option error) :=
  xattr_Setxattr fn ("user.paste." ++ name) (list_byte_of_string value).

(** [func getMetadata(fn string, name string, dflt string) string] *)
Definition getMetadata (fn name dflt : string) : M string :=
  '(bytes, err) ← xattr_Getxattr fn ("user.paste." ++ name);
  match err with
  | Some _ => mret dflt
  | None => mret (string_of_list_byte bytes)
  end.

(** ** Functions defined outside paste.go

    [filepath.Join], the AES block function behind [aes.NewCipher],
    the decoder of [encoding/base32], and [constructMAC], the keyed
    message authentication code of the repository (its definition is
    not in paste.go). They are parameters of the development. *)
Class Externals := {
  filepath_Join : string -> string -> string;
  (** [Block.Encrypt] of the AES cipher with the given key. *)
  aes_Encrypt : list byte -> list byte -> list byte;
  (** [constructMAC(message, key []byte) []byte] *)
  constructMAC : list byte -> list byte -> list byte;
  (** [base32Encoder.DecodeString(s string) ([]byte, error)] *)
  base32_DecodeString : base32.Encoding -> string -> list byte * option error;
}.

(** Go passes a nil key to [constructMAC] as the empty byte string. *)
Definition bytes_of (b : option (list byte)) : list byte :=
  match b with Some l => l | None => [] end.

Section PasteStore.
Context `{Ext : Externals}.

(** Modelled from the spec: [checkMAC(message, messageMAC, key)] is
    not in paste.go; the store "recomputes the same MAC over the
    identifier and compares it to the stored value". *)
Definition checkMAC (message messageMAC key : list byte) : bool :=
  bool_decide (messageMAC = constructMAC message key).

(** *** crypto/aes, crypto/cipher *)

Definition aes_BlockSize : nat := 16.

(** A [cipher.Block] made by [aes.NewCipher]. *)
Record Block := { block_key : list byte }.

Definition Block_Encrypt (b : Block) (src : list byte) : list byte :=
  aes_Encrypt (block_key b) src.

(** [aes.NewCipher(key)]: a key of 16, 24 or 32 bytes gives a block
    cipher, any other length gives [(nil, KeySizeError)]. *)
Definition aes_NewCipher (key : list byte) : option Block * option error :=
  let k := length key in
  if bool_decide (k = 16 ∨ k = 24 ∨ k = 32)
  then (Some {| block_key := key |}, None)
  else (None, Some (KeySizeError k)).

(** The OFB key stream: block 1 is [E(iv)], block [n+1] is [E] of
    block [n]; [ofb_used] counts the key-stream bytes consumed. *)
Record ofb := {
  ofb_b : Block;
  ofb_iv : list byte;
  ofb_used : nat;
}.

Definition keystream (b : Block) (iv : list byte) (i : nat) : byte :=
  nth (i mod aes_BlockSize)
    (Nat.iter (S (i / aes_BlockSize)) (Block_Encrypt b) iv) "000"%byte.

Fixpoint xor_from (b : Block) (iv : list byte) (pos : nat)
  (src : list byte) : list byte :=
  match src with
  | [] => []
  | s :: rest => byte_xor s (keystream b iv pos) :: xor_from b iv (S pos) rest
  end.

(** [cipher.NewOFB(b, iv)]. The first thing it does is call
    [b.BlockSize()], which panics on a nil [Block]; it also panics
    when [len(iv)] is not the block size. *)
Definition cipher_NewOFB (b : option Block) (iv : list byte) : M ofb :=
  match b with
  | None => panic
  | Some blk =>
      if bool_decide (length iv = aes_BlockSize)
      then mret {| ofb_b := blk; ofb_iv := iv; ofb_used := 0 |}
      else panic
  end.

(** [stream.XORKeyStream(dst, src)]: the bytes put in [dst] and the
    advanced stream. *)
Definition XORKeyStream (x : ofb) (src : list byte) : list byte * ofb :=
  (xor_from (ofb_b x) (ofb_iv x) (ofb_used x) src,
   {| ofb_b := ofb_b x; ofb_iv := ofb_iv x;
      ofb_used := ofb_used x + length src |}).

(** [cipher.StreamReader{S, R}.Read(dst)] *)
Definition StreamReader_Read (strm : ofb) (R : osFile) (n : nat)
  : M (list byte * option error * ofb * osFile) :=
  '(got, err, R') ← File_Read R n;
  let '(dst, strm') := XORKeyStream strm got in
  mret (dst, err, strm', R').

(** [cipher.StreamWriter{S, W}.Write(src)] *)
Definition StreamWriter_Write (strm : ofb) (W : osFile) (src : list byte)
  : M (nat * option error * ofb * osFile) :=
  let '(c, strm') := XORKeyStream strm src in
  '(n, err, W') ← File_Write W c;
  let err := if bool_decide (n ≠ length src)
             then match err with None => Some ErrShortWrite | _ => err end
             else err in
  mret (n, err, strm', W').

(** *** Stream values

    The [io.ReadCloser] held by a [PasteReader] is either the opened
    [*os.File] ([RC_File]) or the value
    [&ReadCloser{Reader: &cipher.StreamReader{S, R: r}, Closer: r}]
    ([RC_Stream]); likewise for writers. *)

(** Modelled from the spec: the struct types [ReadCloser] and
    [WriteCloser] are not in paste.go. They pair a reader (writer) with
    a closer, [Read] ([Write]) going to the first and [Close] to the
    second: "closing it releases the underlying content stream". *)
Inductive ReadCloser :=
| RC_File (r : osFile)
| RC_Stream (strm : ofb) (r : osFile).

Inductive WriteCloser :=
| WC_File (w : osFile)
| WC_Stream (strm : ofb) (w : osFile).

Definition ReadCloser_Read (rc : ReadCloser) (n : nat)
  : M (list byte * option error * ReadCloser) :=
  match rc with
  | RC_File r =>
      '(got, err, r') ← File_Read r n; mret (got, err, RC_File r')
  | RC_Stream strm r =>
      '(got, err, strm', r') ← StreamReader_Read strm r n;
      mret (got, err, RC_Stream strm' r')
  end.

Definition ReadCloser_Close (rc : ReadCloser) : M (option error * ReadCloser) :=
  match rc with
  | RC_File r => '(err, r') ← File_Close r; mret (err, RC_File r')
  | RC_Stream strm r => '(err, r') ← File_Close r; mret (err, RC_Stream strm r')
  end.

Definition WriteCloser_Write (wc : WriteCloser) (src : list byte)
  : M (nat * option error * WriteCloser) :=
  match wc with
  | WC_File f =>
      '(n, err, f') ← File_Write f src; mret (n, err, WC_File f')
  | WC_Stream strm f =>
      '(n, err, strm', f') ← StreamWriter_Write strm f src;
      mret (n, err, WC_Stream strm' f')
  end.

Definition WriteCloser_Close (wc : WriteCloser) : M (option error * WriteCloser) :=
  match wc with
  | WC_File f => '(err, f') ← File_Close f; mret (err, WC_File f')
  | WC_Stream strm f => '(err, f') ← File_Close f; mret (err, WC_Stream strm f')
  end.

(** [type PasteReader struct { io.ReadCloser; paste *Paste }] *)
Record PasteReader := {
  pr_ReadCloser : ReadCloser;
  pr_paste : loc;
}.

(** [type PasteWriter struct { io.WriteCloser; paste *Paste }] *)
Record PasteWriter := {
  pw_WriteCloser : WriteCloser;
  pw_paste : loc;
}.

(** *** FilesystemPasteStore *)

(** [func (store *FilesystemPasteStore) filenameForID(id PasteID) string] *)
Definition filenameForID (store : FilesystemPasteStore) (id : PasteID)
  : string :=
  filepath_Join (path store) (PasteID_String id).

(** Calling [store.PasteUpdateCallback(p)] / [store.PasteDestroyCallback(p)]. *)
Definition call_PasteUpdateCallback (store : FilesystemPasteStore) (p : loc)
  : M unit :=
  log (EvPasteUpdateCallback (PasteUpdateCallback store) p).
Definition call_PasteDestroyCallback (store : FilesystemPasteStore) (p : loc)
  : M unit :=
  log (EvPasteDestroyCallback (PasteDestroyCallback store) p).

(** [func (store *FilesystemPasteStore) New(id PasteID, key []byte) (p *Paste, err error)] *)
Definition New (store : FilesystemPasteStore) (id : PasteID)
  (key : option (list byte)) : M (loc * option error) :=
  p ← alloc {| ID := id; Language := ""; store := store; mtime := zeroTime;
               Encrypted := false; encryptionKey := None |};
  _ ← match key with
      | Some _ =>
          _ ← modify p (set_Encrypted true);
          modify p (set_encryptionKey key)
      | None => mret tt
      end;
  mret (p, None).

(** The tail of [Get], from [paste.Language = ...] to the final
    [return], which returns the paste together with [err]. *)
Definition Get_finish (store : FilesystemPasteStore) (filename : string)
  (paste : loc) (err : option error) : M (option loc * option error) :=
  lang ← getMetadata filename "language" "text";
  _ ← modify paste (set_Language lang);
  _ ← call_PasteUpdateCallback store paste;
  mret (Some paste, err).

(** [func (store *FilesystemPasteStore) Get(id PasteID, key []byte) (p *Paste, err error)] *)
Definition Get (store : FilesystemPasteStore) (id : PasteID)
  (key : option (list byte)) : M (option loc * option error) :=
  let filename := filenameForID store id in
  '(stat, err) ← os_Stat filename;
  match stat, err with
  | Some stat, None =>
      paste ← alloc {| ID := id; Language := ""; store := store;
                       mtime := ModTime stat;
                       Encrypted := false; encryptionKey := None |};
      hmac ← getMetadata filename "hmac" "";
      if bool_decide (hmac ≠ "") then
        _ ← modify paste (set_Encrypted true);
        match key with
        | None => Get_finish store filename paste (Some (PasteEncryptedError id))
        | Some k =>
            let '(hmacBytes, e) := base32_DecodeString base32Encoder hmac in
            match e with
            | Some _ => mret (None, e)
            | None =>
                let ok := checkMAC (list_byte_of_string (PasteID_String id))
                            hmacBytes k in
                if negb ok then mret (None, Some (PasteInvalidKeyError id))
                else
                  _ ← modify paste (set_encryptionKey key);
                  Get_finish store filename paste None
            end
        end
      else Get_finish store filename paste None
  | _, _ => mret (None, Some (PasteNotFoundError id))
  end.

(** [func (store *FilesystemPasteStore) Save(p *Paste) error] *)
Definition Save (store : FilesystemPasteStore) (p : loc) : M (option error) :=
  paste ← load p;
  let filename := filenameForID store (ID paste) in
  err ← putMetadata filename "language" (Language paste);
  match err with
  | Some _ => mret err
  | None =>
      if Encrypted paste then
        let hmacBytes :=
          constructMAC (list_byte_of_string (PasteID_String (ID paste)))
            (bytes_of (encryptionKey paste)) in
        let hmac := base32.EncodeToString base32Encoder hmacBytes in
        err ← putMetadata filename "hmac" hmac;
        match err with
        | Some _ => mret err
        | None =>
            err ← putMetadata filename "encryption_version" ENCRYPTION_VERSION;
            match err with
            | Some _ => mret err
            | None => _ ← call_PasteUpdateCallback store p; mret None
            end
        end
      else _ ← call_PasteUpdateCallback store p; mret None
  end.

(** [func (store *FilesystemPasteStore) Destroy(p *Paste) error] *)
Definition Destroy (store : FilesystemPasteStore) (p : loc) : M (option error) :=
  paste ← load p;
  err ← os_Remove (filenameForID store (ID paste));
  match err with
  | Some _ => mret err
  | None => _ ← call_PasteDestroyCallback store p; mret None
  end.

(** [var iv [aes.BlockSize]byte] *)
Definition zero_iv : list byte := repeat "000"%byte aes_BlockSize.

(** [func (store *FilesystemPasteStore) readStream(p *Paste)], returning [*PasteReader, error] *)
Definition readStream (store : FilesystemPasteStore) (p : loc)
  : M (option PasteReader * option error) :=
  paste ← load p;
  let filename := filenameForID store (ID paste) in
  '(r, err) ← os_Open filename;
  match r, err with
  | Some r, None =>
      if Encrypted paste then
        let '(blockCipher, _) := aes_NewCipher (bytes_of (encryptionKey paste)) in
        stream ← cipher_NewOFB blockCipher zero_iv;
        mret (Some {| pr_ReadCloser := RC_Stream stream r; pr_paste := p |},
              None)
      else mret (Some {| pr_ReadCloser := RC_File r; pr_paste := p |}, None)
  | _, _ => mret (None, err)
  end.

(** [func (store *FilesystemPasteStore) writeStream(p *Paste)], returning [*PasteWriter, error] *)
Definition writeStream (store : FilesystemPasteStore) (p : loc)
  : M (option PasteWriter * option error) :=
  paste ← load p;
  let filename := filenameForID store (ID paste) in
  '(w, err) ← os_Create filename;
  match w, err with
  | Some w, None =>
      if Encrypted paste then
        let '(blockCipher, _) := aes_NewCipher (bytes_of (encryptionKey paste)) in
        stream ← cipher_NewOFB blockCipher zero_iv;
        mret (Some {| pw_WriteCloser := WC_Stream stream w; pw_paste := p |},
              None)
      else mret (Some {| pw_WriteCloser := WC_File w; pw_paste := p |}, None)
  | _, _ => mret (None, err)
  end.

(** *** Methods of Paste: delegation to [p.store] *)

Definition Paste_Save (p : loc) : M (option error) :=
  paste ← load p; Save (store paste) p.
Definition Paste_Destroy (p : loc) : M (option error) :=
  paste ← load p; Destroy (store paste) p.
Definition Paste_Reader (p : loc) : M (option PasteReader * option error) :=
  paste ← load p; readStream (store paste) p.
Definition Paste_Writer (p : loc) : M (option PasteWriter * option error) :=
  paste ← load p; writeStream (store paste) p.
Definition Paste_LastModified (p : loc) : M Time :=
  paste ← load p; mret (mtime paste).

(** *** Stream wrappers *)

(** [func (pr *PasteReader) Close() error] *)
Definition PasteReader_Close (pr : PasteReader) : M (option error * PasteReader) :=
  '(err, rc) ← ReadCloser_Close (pr_ReadCloser pr);
  mret (err, {| pr_ReadCloser := rc; pr_paste := pr_paste pr |}).

(** [func (pr *PasteWriter) Close() error]:
    [pr.paste.Save()] and then [return pr.WriteCloser.Close()]. *)
Definition PasteWriter_Close (pr : PasteWriter) : M (option error * PasteWriter) :=
  _ ← Paste_Save (pw_paste pr);
  '(err, wc) ← WriteCloser_Close (pw_WriteCloser pr);
  mret (err, {| pw_WriteCloser := wc; pw_paste := pw_paste pr |}).

(** The promoted [Read] and [Write] methods. *)
Definition PasteReader_Read (pr : PasteReader) (n : nat)
  : M (list byte * option error * PasteReader) :=
  '(got, err, rc) ← ReadCloser_Read (pr_ReadCloser pr) n;
  mret (got, err, {| pr_ReadCloser := rc; pr_paste := pr_paste pr |}).

Definition PasteWriter_Write (pr : PasteWriter) (src : list byte)
  : M (nat * option error * PasteWriter) :=
  '(n, err, wc) ← WriteCloser_Write (pw_WriteCloser pr) src;
  mret (n, err, {| pw_WriteCloser := wc; pw_paste := pw_paste pr |}).

End PasteStore.

(** ** Identifier generation *)

(** [rand.Read(b)] is given by its outcome on a buffer: the count [n],
    the bytes the buffer holds afterwards, and [err]. *)
Definition RandRead := list byte -> nat * list byte * option error.

(** The documented contract of [crypto/rand.Read]: it fills the buffer
    in place, and [n == len(b)] if and only if [err == nil]. *)
Definition rand_contract (rand_Read : RandRead) : Prop :=
  forall b, let '(n, b', err) := rand_Read b in
            length b' = length b /\ (n = length b <-> err = None).

(** [func generatePasteID() (PasteID, error)] *)
Definition generatePasteID (rand_Read : RandRead) : PasteID * option error :=
  let uuid := repeat "000"%byte 3 in
  let '(n, uuid, err) := rand_Read uuid in
  if bool_decide (n ≠ length uuid) || bool_decide (err ≠ None)
  then ("", err)
  else (PasteIDFromString
          (substring 0 5 (base32.EncodeToString base32Encoder uuid)), None).

(** ** Client code: the round trip of the specification *)

Section Client.
Context `{Ext : Externals}.

(** Write the chunks one after the other; stop at the first error. *)
Fixpoint WriteAll (pw : PasteWriter) (chunks : list (list byte))
  : M (option error * PasteWriter) :=
  match chunks with
  | [] => mret (None, pw)
  | c :: rest =>
      '(_, err, pw') ← PasteWriter_Write pw c;
      match err with
      | Some _ => mret (err, pw')
      | None => WriteAll pw' rest
      end
  end.

(** Read with a buffer of [n] bytes until [io.EOF], at most [fuel]
    calls of [Read]; [None] when the fuel runs out first. *)
Fixpoint ReadAll (fuel n : nat) (pr : PasteReader)
  : M (option (list byte * option error)) :=
  match fuel with
  | 0 => mret None
  | S fuel' =>
      '(got, err, pr') ← PasteReader_Read pr n;
      match err with
      | Some EOF => mret (Some (got, None))
      | Some e => mret (Some (got, Some e))
      | None =>
          r ← ReadAll fuel' n pr';
          match r with
          | Some (rest, err') => mret (Some (got ++ rest, err'))
          | None => mret None
          end
      end
  end.

(** Create a paste with [key], write the chunks, close; fetch with
    [key'], open the read stream and read it to the end. Every step
    that returns an error stops the run with that error; a run that is
    out of fuel returns neither data nor error. *)
Definition round_trip (store : FilesystemPasteStore) (id : PasteID)
  (key key' : option (list byte)) (chunks : list (list byte))
  (fuel bufsize : nat) : M (option (list byte) * option error) :=
  '(p, _) ← New store id key;
  '(pw, err) ← Paste_Writer p;
  match pw, err with
  | Some pw, None =>
      '(err, pw) ← WriteAll pw chunks;
      match err with
      | Some _ => mret (None, err)
      | None =>
          '(err, _) ← PasteWriter_Close pw;
          match err with
          | Some _ => mret (None, err)
          | None =>
              '(p', err) ← Get store id key';
              match p', err with
              | Some p', None =>
                  '(pr, err) ← Paste_Reader p';
                  match pr, err with
                  | Some pr, None =>
                      r ← ReadAll fuel bufsize pr;
                      match r with
                      | Some (data, err) => mret (Some data, err)
                      | None => mret (None, None)
                      end
                  | _, _ => mret (None, err)
                  end
              | _, _ => mret (None, err)
              end
          end
      end
  | _, _ => mret (None, err)
  end.

End Client.

(** The log entries a computation adds to the world it starts from. *)
Definition new_events (w w' : World) : list Event :=
  skipn (length (trace w)) (trace w').

Definition is_PasteUpdateCallback (e : Event) : bool :=
  match e with EvPasteUpdateCallback _ _ => true | _ => false end.
Definition is_Setxattr (e : Event) : bool :=
  match e with EvSetxattr _ _ _ => true | _ => false end.
Definition is_Close (e : Event) : bool :=
  match e with EvClose _ => true | _ => false end.

(** ** Vocabulary of the properties *)

Section Vocabulary.
Context `{Ext : Externals}.

(** What [getMetadata] reads in a file system. *)
Definition stored_metadata (m : gmap string File) (fn name dflt : string)
  : string :=
  match m !! fn with
  | Some f =>
      match f_xattr f !! ("user.paste." ++ name)%string with
      | Some v => string_of_list_byte v
      | None => dflt
      end
  | None => dflt
  end.

(** The key-verification tag of a paste: the text encoding of the
    keyed MAC over the raw bytes of its identifier. *)
Definition hmac_tag (p : Paste) : string :=
  base32.EncodeToString base32Encoder
    (constructMAC (list_byte_of_string (PasteID_String (ID p)))
       (bytes_of (encryptionKey p))).

(** The side-channel metadata of a paste, as attribute name and value,
    in the order in which they are written. *)
Definition metadata_of (p : Paste) : list (string * list byte) :=
  ("user.paste.language", list_byte_of_string (Language p))
  :: (if Encrypted p
      then [ ("user.paste.hmac", list_byte_of_string (hmac_tag p));
             ("user.paste.encryption_version", list_byte_of_string "1") ]
      else []).

Definition put_xattr (x : gmap string (list byte)) (kv : string * list byte)
  : gmap string (list byte) :=
  <[kv.1 := kv.2]> x.

(** The calls of a complete persist of paste [p] at address [l]. *)
Definition persist_events (store : FilesystemPasteStore) (l : loc) (p : Paste)
  : list Event :=
  map (fun kv => EvSetxattr (filenameForID store (ID p)) kv.1 kv.2)
    (metadata_of p)
  ++ [EvPasteUpdateCallback (PasteUpdateCallback store) l].

(** A key length accepted by [aes.NewCipher]. *)
Definition valid_key_length (k : nat) : Prop := k = 16 \/ k = 24 \/ k = 32.

(** [os.Create] can succeed on [fn]: no such file yet, or a writable one. *)
Definition creatable (m : gmap string File) (fn : string) : Prop :=
  match m !! fn with Some f => f_writable f = true | None => True end.

(** The closing of the raw stream comes before every persist call
    (attribute write or update callback) in a list of calls. *)
Fixpoint close_before_persist (evs : list Event) : bool :=
  match evs with
  | [] => true
  | e :: rest =>
      if is_Close e then true
      else if is_Setxattr e || is_PasteUpdateCallback e then false
      else close_before_persist rest
  end.

(** *** Values that the store constructs *)

(** [&Paste{ID: id, store: store}], with the given modification time. *)
Definition fresh_paste (store : FilesystemPasteStore) (id : PasteID) (t : Time)
  : Paste :=
  {| ID := id; Language := ""; store := store; mtime := t;
     Encrypted := false; encryptionKey := None |}.

(** The paste that [New] makes for a key. *)
Definition keyed_paste (store : FilesystemPasteStore) (id : PasteID)
  (K : list byte) : Paste :=
  set_encryptionKey (Some K) (set_Encrypted true (fresh_paste store id zeroTime)).

(** An open file at position [pos]; an OFB stream of [key] that has
    consumed [pos] bytes of key stream. *)
Definition file_at (name : string) (pos : nat) : osFile :=
  {| of_name := name; of_offset := pos; of_closed := false |}.
Definition ofb_at (key : list byte) (pos : nat) : ofb :=
  {| ofb_b := {| block_key := key |}; ofb_iv := zero_iv; ofb_used := pos |}.

Definition cipher_writer (key : list byte) (name : string) (pos : nat) (l : loc)
  : PasteWriter :=
  {| pw_WriteCloser := WC_Stream (ofb_at key pos) (file_at name pos);
     pw_paste := l |}.
Definition cipher_reader (key : list byte) (name : string) (pos : nat) (l : loc)
  : PasteReader :=
  {| pr_ReadCloser := RC_Stream (ofb_at key pos) (file_at name pos);
     pr_paste := l |}.

(** The world after [os.Create] made or truncated [name], whose
    extended attributes are [x]. *)
Definition created (name : string) (x : gmap string (list byte)) (w : World)
  : World :=
  {| fs := <[name := {| f_data := []; f_xattr := x; f_mtime := now w;
                        f_writable := true |}]> (fs w);
     heap := heap w;
     trace := trace w ++ [EvCreate name];
     now := now w |}.

(** The raw file under a [WriteCloser], and the [WriteCloser] once
    that file is closed. *)
Definition wc_file (wc : WriteCloser) : osFile :=
  match wc with WC_File f => f | WC_Stream _ f => f end.
Definition wc_closed (wc : WriteCloser) : WriteCloser :=
  let f := wc_file wc in
  let f' := {| of_name := of_name f; of_offset := of_offset f;
               of_closed := true |} in
  match wc with WC_File _ => WC_File f' | WC_Stream s _ => WC_Stream s f' end.

End Vocabulary.

(** ** Reference instances of the outside functions

    Simple executable stand-ins, used to run the model on concrete
    inputs: path joining by [/], a toy block function, a toy keyed
    checksum, and a decoder for the output of [base32.Encode]. *)
Module Ref.

Definition Join (a b : string) : string := a ++ "/" ++ b.

Definition Encrypt (key block : list byte) : list byte :=
  map (fun c => byte_of_N (Byte.to_N c + 1 + N.of_nat (length key))) block.

Definition MAC (message key : list byte) : list byte :=
  [ fold_right byte_xor "000"%byte (key ++ message);
    byte_of_N (fold_right (fun c acc => (Byte.to_N c + acc)%N) 0%N key);
    byte_of_N (N.of_nat (length key + length message)) ].

(** Position of a symbol in the alphabet. *)
Fixpoint index_of (c : byte) (l : list byte) : option N :=
  match l with
  | [] => None
  | x :: l' => if bool_decide (x = c) then Some 0%N
               else option_map N.succ (index_of c l')
  end.

Definition decodeMap (enc : base32.Encoding) (c : byte) : option N :=
  index_of c (base32.encode enc).

(** Five bytes from eight 5-bit groups, in byte arithmetic. *)
Definition pack (q : list N) : list byte :=
  let d i := nth i q 0%N in
  [ byte_of_N (N.lor (N.shiftl (d 0) 3) (N.shiftr (d 1) 2));
    byte_of_N (N.lor (N.lor (N.shiftl (d 1) 6) (N.shiftl (d 2) 1))
                 (N.shiftr (d 3) 4));
    byte_of_N (N.lor (N.shiftl (d 3) 4) (N.shiftr (d 4) 1));
    byte_of_N (N.lor (N.lor (N.shiftl (d 4) 7) (N.shiftl (d 5) 2))
                 (N.shiftr (d 6) 3));
    byte_of_N (N.lor (N.shiftl (d 6) 5) (d 7)) ].

Fixpoint decode_symbols (enc : base32.Encoding) (l : list byte)
  : option (list N) :=
  match l with
  | [] => Some []
  | c :: l' =>
      match decodeMap enc c, decode_symbols enc l' with
      | Some q, Some qs => Some (q :: qs)
      | _, _ => None
      end
  end.

(** Bytes carried by a final quantum with [dlen] data symbols. *)
Definition quantum_bytes (dlen : nat) : option nat :=
  match dlen with
  | 2 => Some 1 | 4 => Some 2 | 5 => Some 3 | 7 => Some 4 | 8 => Some 5
  | _ => None
  end.

Definition is_pad (c : byte) : bool := bool_decide (c = base32.padChar).

Fixpoint data_prefix (l : list byte) : list byte :=
  match l with
  | [] => []
  | c :: l' => if is_pad c then [] else c :: data_prefix l'
  end.

(** One quantum of eight characters: the decoded bytes and whether
    it was a full one (a padded quantum is the last). *)
Definition decode_quantum (enc : base32.Encoding) (cs : list byte)
  : option (list byte * bool) :=
  let data := data_prefix cs in
  if forallb is_pad (skipn (length data) cs) then
    match quantum_bytes (length data), decode_symbols enc data with
    | Some n, Some qs => Some (firstn n (pack qs), Nat.eqb (length data) 8)
    | _, _ => None
    end
  else None.

(** [Decode], with [pos] the number of characters consumed so far
    (reported by [CorruptInputError]). *)
Fixpoint Decode (enc : base32.Encoding) (pos : nat) (src : list byte)
  : list byte * option error :=
  match src with
  | [] => ([], None)
  | c0 :: c1 :: c2 :: c3 :: c4 :: c5 :: c6 :: c7 :: rest =>
      match decode_quantum enc [c0; c1; c2; c3; c4; c5; c6; c7] with
      | Some (bytes, true) =>
          let '(more, err) := Decode enc (pos + 8) rest in
          (bytes ++ more, err)
      | Some (bytes, false) =>
          match rest with
          | [] => (bytes, None)
          | _ => (bytes, Some (CorruptInputError (pos + 8)))
          end
      | None => ([], Some (CorruptInputError pos))
      end
  | _ => ([], Some (CorruptInputError pos))
  end.

Definition DecodeString (enc : base32.Encoding) (s : string)
  : list byte * option error :=
  Decode enc 0 (list_byte_of_string s).

#[export] Instance externals : Externals := {|
  filepath_Join := Join;
  aes_Encrypt := Encrypt;
  constructMAC := MAC;
  base32_DecodeString := DecodeString;
|}.

(** A source of randomness that always delivers the same three bytes,
    and one that always fails. *)
Definition rand_fixed (b0 b1 b2 : byte) : RandRead :=
  fun b => (length b, firstn (length b) [b0; b1; b2] ++
                      repeat "000"%byte (length b - 3), None).
Definition rand_failing : RandRead :=
  fun b => (0, b, Some (ErrRandom "entropy source unavailable")).

Definition store0 : FilesystemPasteStore :=
  {| PasteUpdateCallback := externalCallback "update";
     PasteDestroyCallback := externalCallback "destroy";
     path := "/pastes" |}.

Definition world0 : World :=
  {| fs := ∅; heap := []; trace := []; now := 1000%Z |}.

(** The 5-bit values, and what is checked of the symbol of each. *)
Definition quintets : list N := map N.of_nat (seq 0 32).
Definition symbol_ok (q : N) : bool :=
  bool_decide (decodeMap base32Encoder (base32.symbol base32Encoder q) = Some q)
  && negb (is_pad (base32.symbol base32Encoder q))
  && bool_decide (In (base32.symbol base32Encoder q)
                    (list_byte_of_string alphabet)).

(** *** Concrete scenarios *)

Definition key32 : list byte := repeat "000"%byte 32.
Definition secret : list byte := list_byte_of_string "secret".
Definition file0 : string := "/pastes/abcde".

Definition world_of {A} (r : Res A) : World :=
  match r with Done _ w => w | Panicked w => w end.

(** After the paste [abcde] was written under [key32] and read back. *)
Definition world_encrypted : World :=
  world_of (round_trip store0 "abcde" (Some key32) (Some key32) [secret] 10 4
              world0).
Definition paste_encrypted : Paste := keyed_paste store0 "abcde" key32.

(** After [New] and [Writer] for an unencrypted paste [abcde]. *)
Definition writer0 : PasteWriter :=
  {| pw_WriteCloser := WC_File (file_at file0 0); pw_paste := 0 |}.
Definition world_open : World :=
  {| fs := {[ file0 := {| f_data := []; f_xattr := ∅; f_mtime := 1000%Z;
                          f_writable := true |} ]};
     heap := [fresh_paste store0 "abcde" zeroTime];
     trace := [EvCreate file0];
     now := 1000%Z |}.

(** ... and after the paste was then destroyed, the writer still open. *)
Definition world_destroyed : World :=
  world_of (Paste_Destroy 0 world_open).

End Ref.

(** ** More client code and stream values *)

Section Coverage.
Context `{Ext : Externals}.

(** Create a paste with [key], write the chunks through its write
    stream and close it; the first error stops the run. *)
Definition store_paste (store : FilesystemPasteStore) (id : PasteID)
  (key : option (list byte)) (chunks : list (list byte)) : M (option error) :=
  '(p, _) ← New store id key;
  '(pw, err) ← Paste_Writer p;
  match pw, err with
  | Some pw, None =>
      '(err, pw) ← WriteAll pw chunks;
      match err with
      | Some _ => mret err
      | None => '(err, _) ← PasteWriter_Close pw; mret err
      end
  | _, _ => mret err
  end.

(** Fetch the paste with [key], open its read stream and read it to
    the end with a buffer of [bufsize] bytes. *)
Definition fetch_paste (store : FilesystemPasteStore) (id : PasteID)
  (key : option (list byte)) (fuel bufsize : nat)
  : M (option (list byte) * option error) :=
  '(p, err) ← Get store id key;
  match p, err with
  | Some p, None =>
      '(pr, err) ← Paste_Reader p;
      match pr, err with
      | Some pr, None =>
          r ← ReadAll fuel bufsize pr;
          match r with
          | Some (data, err) => mret (Some data, err)
          | None => mret (None, None)
          end
      | _, _ => mret (None, err)
      end
  | _, _ => mret (None, err)
  end.

(** The streams of an unencrypted paste: the opened file itself. *)
Definition plain_writer (name : string) (pos : nat) (l : loc) : PasteWriter :=
  {| pw_WriteCloser := WC_File (file_at name pos); pw_paste := l |}.
Definition plain_reader (name : string) (pos : nat) (l : loc) : PasteReader :=
  {| pr_ReadCloser := RC_File (file_at name pos); pr_paste := l |}.

(** The raw file under a [ReadCloser]. *)
Definition rc_file (rc : ReadCloser) : osFile :=
  match rc with RC_File f => f | RC_Stream _ f => f end.

(** The paste that [New] puts in the heap. *)
Definition new_paste (store : FilesystemPasteStore) (id : PasteID)
  (key : option (list byte)) : Paste :=
  {| ID := id; Language := ""; store := store; mtime := zeroTime;
     Encrypted := match key with Some _ => true | None => false end;
     encryptionKey := key |}.

(** How often the update callback is called in a list of calls. *)
Definition update_calls (evs : list Event) : nat :=
  length (filter (fun e => is_PasteUpdateCallback e = true) evs).

End Coverage.

(** * Proofs *)

(** ** Bytes and bits *)

Lemma to_N_lt (b : byte) : (Byte.to_N b < 256)%N.
Proof. pose proof (Byte.to_N_bounded b). lia. Qed.

Lemma to_N_byte_of_N (n : N) : Byte.to_N (byte_of_N n) = (n mod 256)%N.
Proof.
  unfold byte_of_N.
  destruct (Byte.of_N (n mod 256)) as [b|] eqn:E.
  - by apply Byte.to_of_N.
  - apply Byte.of_N_None_iff in E.
    pose proof (N.mod_upper_bound n 256). lia.
Qed.

Lemma byte_of_N_to_N (b : byte) : byte_of_N (Byte.to_N b) = b.
Proof.
  unfold byte_of_N. rewrite N.mod_small by apply to_N_lt.
  by rewrite Byte.of_to_N.
Qed.

Lemma to_N_inj (a b : byte) : Byte.to_N a = Byte.to_N b -> a = b.
Proof.
  intros H. rewrite <- (byte_of_N_to_N a), <- (byte_of_N_to_N b). by rewrite H.
Qed.

Lemma lxor_lt_256 (a b : N) : (a < 256 -> b < 256 -> N.lxor a b < 256)%N.
Proof.
  intros Ha Hb.
  destruct (N.eq_dec (N.lxor a b) 0%N) as [->|Hne]; [lia|].
  apply N.log2_lt_pow2 with (b := 8%N); [lia|].
  eapply N.le_lt_trans; [apply N.log2_lxor|].
  apply N.max_lub_lt.
  - destruct (N.eq_dec a 0%N) as [->|]; [done|]. apply N.log2_lt_pow2; lia.
  - destruct (N.eq_dec b 0%N) as [->|]; [done|]. apply N.log2_lt_pow2; lia.
Qed.

Lemma to_N_byte_xor (a b : byte) :
  Byte.to_N (byte_xor a b) = N.lxor (Byte.to_N a) (Byte.to_N b).
Proof.
  unfold byte_xor. rewrite to_N_byte_of_N.
  apply N.mod_small, lxor_lt_256; apply to_N_lt.
Qed.

Lemma byte_xor_involutive (a k : byte) : byte_xor (byte_xor a k) k = a.
Proof.
  apply to_N_inj. rewrite !to_N_byte_xor.
  by rewrite N.lxor_assoc, N.lxor_nilpotent, N.lxor_0_r.
Qed.

Section Bits.
Local Open Scope N_scope.

Lemma testbit_byte_high (s k : N) : s < 256 -> 8 <= k -> N.testbit s k = false.
Proof.
  intros Hs Hk. destruct (N.eq_dec s 0) as [->|Hne]; [apply N.bits_0|].
  apply N.bits_above_log2.
  assert (N.log2 s < 8) by (apply N.log2_lt_pow2; lia). lia.
Qed.

Lemma small_index (n : N) :
  n < 8 -> n = 0 \/ n = 1 \/ n = 2 \/ n = 3 \/ n = 4 \/ n = 5 \/ n = 6 \/ n = 7.
Proof. lia. Qed.

Ltac bit_step :=
  first [ rewrite N.lor_spec | rewrite N.land_spec | rewrite N.shiftr_spec'
        | rewrite N.shiftl_spec_high' by (vm_compute; discriminate)
        | rewrite N.shiftl_spec_low by (vm_compute; reflexivity) ].

Ltac norm_idx :=
  repeat match goal with
         | |- context [N.testbit ?s ?k] =>
             let k' := eval vm_compute in k in
             progress change (N.testbit s k) with (N.testbit s k')
         end.

Ltac byte_bits :=
  repeat bit_step; norm_idx;
  repeat match goal with
         | H : ?s < 256 |- context [N.testbit ?s ?k] =>
             rewrite (testbit_byte_high s k H) by (vm_compute; discriminate)
         end;
  cbn;
  repeat match goal with
         | |- context [N.testbit ?s ?k] => is_var s; destruct (N.testbit s k)
         end;
  reflexivity.

Ltac byte_eq :=
  apply N.bits_inj; intros n;
  destruct (N.lt_ge_cases n 8) as [Hn|Hn];
  [ change 256 with (2 ^ 8); rewrite N.mod_pow2_bits_low by exact Hn;
    destruct (small_index n Hn) as [->|[->|[->|[->|[->|[->|[->| ->]]]]]]];
    byte_bits
  | change 256 with (2 ^ 8); rewrite N.mod_pow2_bits_high by exact Hn;
    symmetry; apply testbit_byte_high; assumption ].

Lemma pack0 s0 s1 : s0 < 256 -> s1 < 256 ->
  (N.lor (N.shiftl (N.shiftr s0 3) 3)
     (N.shiftr (N.lor (N.land (N.shiftr s1 6) 31) (N.land (N.shiftl s0 2) 31)) 2))
    mod 256 = s0.
Proof. intros H0 H1. byte_eq. Qed.

Lemma pack1 s0 s1 s2 : s0 < 256 -> s1 < 256 -> s2 < 256 ->
  (N.lor (N.lor (N.shiftl (N.lor (N.land (N.shiftr s1 6) 31) (N.land (N.shiftl s0 2) 31)) 6)
                (N.shiftl (N.land (N.shiftr s1 1) 31) 1))
         (N.shiftr (N.lor (N.land (N.shiftr s2 4) 31) (N.land (N.shiftl s1 4) 31)) 4))
    mod 256 = s1.
Proof. intros H0 H1 H2. byte_eq. Qed.


Lemma pack2 s1 s2 s3 : s1 < 256 -> s2 < 256 -> s3 < 256 ->
  (N.lor (N.shiftl (N.lor (N.land (N.shiftr s2 4) 31) (N.land (N.shiftl s1 4) 31)) 4)
         (N.shiftr (N.lor (N.shiftr s3 7) (N.land (N.shiftl s2 1) 31)) 1))
    mod 256 = s2.
Proof. intros H1 H2 H3. byte_eq. Qed.

Lemma pack3 s2 s3 s4 : s2 < 256 -> s3 < 256 -> s4 < 256 ->
  (N.lor (N.lor (N.shiftl (N.lor (N.shiftr s3 7) (N.land (N.shiftl s2 1) 31)) 7)
                (N.shiftl (N.land (N.shiftr s3 2) 31) 2))
         (N.shiftr (N.lor (N.shiftr s4 5) (N.land (N.shiftl s3 3) 31)) 3))
    mod 256 = s3.
Proof. intros H2 H3 H4. byte_eq. Qed.

Lemma pack4 s3 s4 : s3 < 256 -> s4 < 256 ->
  (N.lor (N.shiftl (N.lor (N.shiftr s4 5) (N.land (N.shiftl s3 3) 31)) 5)
         (N.land s4 31))
    mod 256 = s4.
Proof. intros H3 H4. byte_eq. Qed.

Lemma pack_unpack (b0 b1 b2 b3 b4 : byte) :
  Ref.pack (base32.unpack (Byte.to_N b0) (Byte.to_N b1) (Byte.to_N b2)
              (Byte.to_N b3) (Byte.to_N b4)) = [b0; b1; b2; b3; b4].
Proof.
  pose proof (to_N_lt b0). pose proof (to_N_lt b1). pose proof (to_N_lt b2).
  pose proof (to_N_lt b3). pose proof (to_N_lt b4).
  unfold Ref.pack, base32.unpack; cbn [nth].
  repeat f_equal; apply to_N_inj; rewrite to_N_byte_of_N.
  - by apply pack0.
  - by apply pack1.
  - by apply pack2.
  - by apply pack3.
  - by apply pack4.
Qed.

End Bits.

(** ** The symbols of base32 *)

Section Base32Facts.
Local Open Scope N_scope.

Lemma land31_lt (a : N) : N.land a 31 < 32.
Proof.
  change 31 with (N.ones 5). rewrite N.land_ones.
  apply N.mod_upper_bound. discriminate.
Qed.

Lemma lor_lt_32 (a b : N) : a < 32 -> b < 32 -> N.lor a b < 32.
Proof.
  intros Ha Hb.
  rewrite <- (N.mod_small a 32), <- (N.mod_small b 32) by assumption.
  change 32 with (2 ^ 5). rewrite <- !N.land_ones, <- N.land_lor_distr_l.
  rewrite N.land_ones. apply N.mod_upper_bound. discriminate.
Qed.

Lemma shiftr_lt (a k m : N) : a < m * 2 ^ k -> N.shiftr a k < m.
Proof.
  intros H. rewrite N.shiftr_div_pow2.
  apply N.Div0.div_lt_upper_bound. lia.
Qed.

Lemma unpack_lt (s0 s1 s2 s3 s4 : N) :
  s0 < 256 -> s1 < 256 -> s2 < 256 -> s3 < 256 -> s4 < 256 ->
  Forall (fun q => q < 32) (base32.unpack s0 s1 s2 s3 s4).
Proof.
  intros H0 H1 H2 H3 H4. unfold base32.unpack.
  repeat apply Forall_cons_2; try apply Forall_nil_2;
    repeat first [ apply land31_lt | apply lor_lt_32 ].
  - apply shiftr_lt. exact H0.
  - apply N.lt_trans with 2; [apply shiftr_lt; exact H3 | reflexivity].
  - apply N.lt_trans with 8; [apply shiftr_lt; exact H4 | reflexivity].
Qed.

Lemma unpack_bytes_lt (b0 b1 b2 b3 b4 : byte) :
  Forall (fun q => q < 32)
    (base32.unpack (Byte.to_N b0) (Byte.to_N b1) (Byte.to_N b2)
       (Byte.to_N b3) (Byte.to_N b4)).
Proof. apply unpack_lt; apply to_N_lt. Qed.

Lemma In_quintets (q : N) : q < 32 -> In q Ref.quintets.
Proof.
  intros H. rewrite <- (N2Nat.id q). apply in_map, in_seq. lia.
Qed.

Lemma symbols_ok : forallb Ref.symbol_ok Ref.quintets = true.
Proof. vm_compute. reflexivity. Qed.

Lemma symbol_facts (q : N) : q < 32 ->
  Ref.decodeMap base32Encoder (base32.symbol base32Encoder q) = Some q
  /\ Ref.is_pad (base32.symbol base32Encoder q) = false
  /\ In (base32.symbol base32Encoder q) (list_byte_of_string alphabet).
Proof.
  intros H. apply In_quintets in H.
  pose proof (proj1 (forallb_forall _ _) symbols_ok q H) as Hq.
  unfold Ref.symbol_ok in Hq.
  apply andb_prop in Hq as [Hq H3]. apply andb_prop in Hq as [H1 H2].
  apply bool_decide_eq_true in H1. apply bool_decide_eq_true in H3.
  apply negb_true_iff in H2. auto.
Qed.
End Base32Facts.

(** ** The reference decoder inverts the encoder *)

Abbreviation enc0 := base32Encoder.
Abbreviation lt32 := (fun q : N => (q < 32)%N).

Lemma data_prefix_symbols (qs : list N) (k : nat) :
  Forall lt32 qs ->
  Ref.data_prefix (map (base32.symbol enc0) qs ++ repeat base32.padChar k)
  = map (base32.symbol enc0) qs.
Proof.
  induction 1 as [|q qs Hq _ IH]; cbn [map app Ref.data_prefix].
  - destruct k; reflexivity.
  - destruct (symbol_facts q Hq) as (_ & -> & _). by rewrite IH.
Qed.

Lemma decode_symbols_symbols (qs : list N) :
  Forall lt32 qs ->
  Ref.decode_symbols enc0 (map (base32.symbol enc0) qs) = Some qs.
Proof.
  induction 1 as [|q qs Hq _ IH]; cbn [map Ref.decode_symbols]; [done|].
  destruct (symbol_facts q Hq) as (-> & _). by rewrite IH.
Qed.

Lemma forallb_is_pad (k : nat) :
  forallb Ref.is_pad (repeat base32.padChar k) = true.
Proof. induction k; [done|]. cbn [repeat forallb]. by rewrite IHk. Qed.

Lemma decode_quantum_symbols (qs : list N) (k n : nat) :
  Forall lt32 qs ->
  Ref.quantum_bytes (length qs) = Some n ->
  Ref.decode_quantum enc0 (map (base32.symbol enc0) qs ++ repeat base32.padChar k)
  = Some (firstn n (Ref.pack qs), Nat.eqb (length qs) 8).
Proof.
  intros Hqs Hn. unfold Ref.decode_quantum.
  rewrite data_prefix_symbols by assumption.
  rewrite drop_app_length, forallb_is_pad, length_map, Hn.
  by rewrite decode_symbols_symbols.
Qed.

Lemma Forall_firstn {A} (P : A -> Prop) (n : nat) (l : list A) :
  Forall P l -> Forall P (firstn n l).
Proof. intros H. revert n. induction H; intros [|n]; cbn; auto. Qed.

(** The bytes of a quantum depend on its leading 5-bit groups only. *)
Lemma pack_firstn (m n : nat) (q : list N) :
  length q = 8 ->
  (m, n) = (2, 1) \/ (m, n) = (4, 2) \/ (m, n) = (5, 3) \/ (m, n) = (7, 4) ->
  firstn n (Ref.pack (firstn m q)) = firstn n (Ref.pack q).
Proof.
  intros Hq Hmn.
  destruct q as [|q0 [|q1 [|q2 [|q3 [|q4 [|q5 [|q6 [|q7 [|]]]]]]]]]; try discriminate.
  destruct Hmn as [E|[E|[E|E]]]; injection E as -> ->; reflexivity.
Qed.

Lemma to_N_zero : Byte.to_N "000"%byte = 0%N.
Proof. reflexivity. Qed.

Ltac quantum m n k b0 b1 b2 b3 b4 :=
  let E := fresh "E" in
  pose proof (decode_quantum_symbols
                (firstn m (base32.unpack (Byte.to_N b0) (Byte.to_N b1)
                             (Byte.to_N b2) (Byte.to_N b3) (Byte.to_N b4)))
                k n
                (Forall_firstn _ _ _ (unpack_bytes_lt b0 b1 b2 b3 b4))
                eq_refl) as E;
  rewrite pack_firstn in E by (auto; tauto);
  rewrite pack_unpack in E;
  rewrite ?to_N_zero in E;
  cbn [base32.unpack firstn map app repeat length Nat.eqb] in E.

Lemma Decode_Encode (src : list byte) (pos : nat) :
  Ref.Decode enc0 pos (base32.Encode enc0 src) = (src, None).
Proof.
  remember (length src) as len eqn:Hlen. revert src pos Hlen.
  induction len as [len IH] using lt_wf_ind. intros src pos ->.
  destruct src as [|b0 [|b1 [|b2 [|b3 [|b4 rest]]]]].
  - reflexivity.
  - quantum 2 1 6 b0 "000"%byte "000"%byte "000"%byte "000"%byte.
    cbn [base32.Encode base32.unpack firstn map app repeat Ref.Decode].
    by rewrite E.
  - quantum 4 2 4 b0 b1 "000"%byte "000"%byte "000"%byte.
    cbn [base32.Encode base32.unpack firstn map app repeat Ref.Decode].
    by rewrite E.
  - quantum 5 3 3 b0 b1 b2 "000"%byte "000"%byte.
    cbn [base32.Encode base32.unpack firstn map app repeat Ref.Decode].
    by rewrite E.
  - quantum 7 4 1 b0 b1 b2 b3 "000"%byte.
    cbn [base32.Encode base32.unpack firstn map app repeat Ref.Decode].
    by rewrite E.
  - pose proof (decode_quantum_symbols
                  (base32.unpack (Byte.to_N b0) (Byte.to_N b1) (Byte.to_N b2)
                     (Byte.to_N b3) (Byte.to_N b4)) 0 5
                  (unpack_bytes_lt b0 b1 b2 b3 b4) eq_refl) as E.
    rewrite pack_unpack in E.
    cbn [base32.unpack firstn map app repeat length Nat.eqb] in E.
    cbn [base32.Encode base32.unpack firstn map app repeat Ref.Decode].
    rewrite E.
    rewrite (IH (length rest)); [reflexivity | cbn [length]; lia | reflexivity].
Qed.

Lemma DecodeString_EncodeToString (src : list byte) :
  Ref.DecodeString enc0 (base32.EncodeToString enc0 src) = (src, None).
Proof.
  unfold Ref.DecodeString, base32.EncodeToString.
  rewrite list_byte_of_string_of_list_byte. apply Decode_Encode.
Qed.

(** ** Running the store: what each operation does to a world *)

Lemma bind_run {A B} (m : M A) (k : A -> M B) (w : World) :
  (m ≫= k) w = match m w with Done a w' => k a w' | Panicked w' => Panicked w' end.
Proof. reflexivity. Qed.

Lemma new_events_app (w w' : World) (evs : list Event) :
  trace w' = trace w ++ evs -> new_events w w' = evs.
Proof. intros H. unfold new_events. by rewrite H, drop_app_length. Qed.


Section Runs.
Context `{Ext : Externals}.

Lemma load_run (l : loc) (p : Paste) (w : World) :
  heap w !! l = Some p -> load l w = Done p w.
Proof. intros H. unfold load. by rewrite H. Qed.

Lemma getMetadata_run (fn name dflt : string) (w : World) :
  getMetadata fn name dflt w = Done (stored_metadata (fs w) fn name dflt) w.
Proof.
  unfold getMetadata, xattr_Getxattr, stored_metadata. rewrite bind_run.
  destruct (fs w !! fn) as [f|]; [|reflexivity].
  destruct (f_xattr f !! _); reflexivity.
Qed.

Lemma Save_run store l p w : heap w !! l = Some p ->
  Save store l w =
  let fn := filenameForID store (ID p) in
  let first := EvSetxattr fn "user.paste.language"
                 (list_byte_of_string (Language p)) in
  match fs w !! fn with
  | Some f =>
      if f_writable f then
        Done None
          {| fs := <[fn := {| f_data := f_data f;
                              f_xattr := fold_left put_xattr (metadata_of p)
                                           (f_xattr f);
                              f_mtime := f_mtime f;
                              f_writable := true |}]> (fs w);
             heap := heap w;
             trace := trace w ++ persist_events store l p;
             now := now w |}
      else Done (Some (PathError "setxattr" fn EACCES))
             (set_trace (trace w ++ [first]) w)
  | None => Done (Some (PathError "setxattr" fn ENOENT))
              (set_trace (trace w ++ [first]) w)
  end.
Proof.
  intros Hl. unfold Save. rewrite bind_run, (load_run _ _ _ Hl).
  unfold putMetadata, xattr_Setxattr, call_PasteUpdateCallback, log, step,
    persist_events, metadata_of.
  rewrite !bind_run. cbn zeta. cbn [fs set_trace].
  destruct (fs w !! filenameForID store (ID p)) as [f|] eqn:Ef; [|reflexivity].
  destruct (f_writable f) eqn:Wf; [|reflexivity].
  destruct (Encrypted p) eqn:Ep.
  - rewrite !bind_run. cbn [fs set_fs set_trace heap trace now].
    rewrite lookup_insert_eq. cbn [f_writable].
    rewrite !bind_run. cbn [fs set_fs set_trace heap trace now].
    rewrite lookup_insert_eq. cbn [f_writable f_data f_xattr f_mtime].
    rewrite !insert_insert_eq. rewrite !bind_run.
    unfold mret, M_ret, set_trace, set_fs. cbn. rewrite <- !app_assoc. reflexivity.
  - rewrite !bind_run. unfold mret, M_ret, set_trace, set_fs. cbn.
    rewrite <- !app_assoc. reflexivity.
Qed.
End Runs.

Ltac worlds := unfold mret, M_ret, set_trace, set_fs, set_heap; cbn [fs heap trace now].

Section StoreRuns.
Context `{Ext : Externals}.

Lemma modify_last (g : Paste -> Paste) (h : list Paste) (p : Paste) (w : World) :
  heap w = h ++ [p] ->
  modify (length h) g w = Done tt (set_heap (h ++ [g p]) w).
Proof.
  intros H. unfold modify. rewrite H, list_lookup_middle by reflexivity.
  rewrite insert_app_r_alt, Nat.sub_diag by lia. reflexivity.
Qed.

Lemma Get_finish_run store fn h p err w :
  heap w = h ++ [p] ->
  Get_finish store fn (length h) err w =
  Done (Some (length h), err)
    {| fs := fs w;
       heap := h ++ [set_Language (stored_metadata (fs w) fn "language" "text") p];
       trace := trace w ++ [EvPasteUpdateCallback (PasteUpdateCallback store) (length h)];
       now := now w |}.
Proof.
  intros H. unfold Get_finish, call_PasteUpdateCallback, log.
  rewrite bind_run, getMetadata_run, bind_run, (modify_last _ h p) by exact H.
  reflexivity.
Qed.

Lemma Get_run store id key w :
  Get store id key w =
  let fn := filenameForID store id in
  let l := length (heap w) in
  match fs w !! fn with
  | None => Done (None, Some (PasteNotFoundError id)) w
  | Some f =>
      let tag := stored_metadata (fs w) fn "hmac" "" in
      let lang := stored_metadata (fs w) fn "language" "text" in
      let base := fresh_paste store id (f_mtime f) in
      let finish p err :=
        Done (Some l, err)
          {| fs := fs w; heap := heap w ++ [set_Language lang p];
             trace := trace w ++ [EvPasteUpdateCallback (PasteUpdateCallback store) l];
             now := now w |} in
      let stop err :=
        Done (None, Some err) (set_heap (heap w ++ [set_Encrypted true base]) w) in
      if bool_decide (tag ≠ "") then
        match key with
        | None => finish (set_Encrypted true base) (Some (PasteEncryptedError id))
        | Some k =>
            match base32_DecodeString base32Encoder tag with
            | (_, Some e) => stop e
            | (mac, None) =>
                if checkMAC (list_byte_of_string (PasteID_String id)) mac k
                then finish (set_encryptionKey (Some k) (set_Encrypted true base)) None
                else stop (PasteInvalidKeyError id)
            end
        end
      else finish base None
  end.
Proof.
  unfold Get, os_Stat, alloc. cbn zeta. rewrite bind_run.
  destruct (fs w !! filenameForID store id) as [f|] eqn:Ef; [|reflexivity].
  cbn [ModTime]. rewrite !bind_run, getMetadata_run. cbn [fs set_heap].
  fold (fresh_paste store id (f_mtime f)).
  case_bool_decide as Htag.
  - rewrite bind_run, (modify_last _ (heap w) (fresh_paste store id (f_mtime f)))
      by reflexivity.
    destruct key as [k|].
    + destruct (base32_DecodeString base32Encoder _) as [mac [e|]]; [reflexivity|].
      destruct (checkMAC _ mac k); cbn [negb]; [|reflexivity].
      rewrite bind_run, (modify_last _ (heap w) (set_Encrypted true _))
        by reflexivity.
      erewrite Get_finish_run by reflexivity. reflexivity.
    + erewrite Get_finish_run by reflexivity. reflexivity.
  - erewrite Get_finish_run by reflexivity. reflexivity.
Qed.

Lemma Destroy_run store l p w : heap w !! l = Some p ->
  Destroy store l w =
  let fn := filenameForID store (ID p) in
  match fs w !! fn with
  | Some _ =>
      Done None
        {| fs := delete fn (fs w); heap := heap w;
           trace := trace w ++ [EvRemove fn;
                                EvPasteDestroyCallback (PasteDestroyCallback store) l];
           now := now w |}
  | None =>
      Done (Some (PathError "remove" fn ENOENT))
        (set_trace (trace w ++ [EvRemove fn]) w)
  end.
Proof.
  intros Hl. unfold Destroy. rewrite bind_run, (load_run _ _ _ Hl).
  unfold os_Remove, call_PasteDestroyCallback, log, step. rewrite !bind_run.
  cbn zeta. cbn [fs set_trace].
  destruct (fs w !! filenameForID store (ID p)); [|reflexivity].
  rewrite bind_run. worlds. rewrite <- app_assoc. reflexivity.
Qed.
End StoreRuns.

Section StreamRuns.
Context `{Ext : Externals}.

Lemma valid_key_length_dec (k : nat) :
  bool_decide (k = 16 ∨ k = 24 ∨ k = 32) = true <-> valid_key_length k.
Proof. unfold valid_key_length. apply bool_decide_eq_true. Qed.

Lemma aes_NewCipher_valid (key : list byte) :
  valid_key_length (length key) ->
  aes_NewCipher key = (Some {| block_key := key |}, None).
Proof.
  intros H. unfold aes_NewCipher.
  by rewrite (proj2 (valid_key_length_dec _) H).
Qed.

Lemma aes_NewCipher_invalid (key : list byte) :
  ~ valid_key_length (length key) ->
  aes_NewCipher key = (None, Some (KeySizeError (length key))).
Proof.
  intros H. unfold aes_NewCipher. case_bool_decide; [|reflexivity].
  exfalso. by apply H.
Qed.

Lemma readStream_run store l p w : heap w !! l = Some p ->
  readStream store l w =
  let fn := filenameForID store (ID p) in
  let key := bytes_of (encryptionKey p) in
  match fs w !! fn with
  | None => Done (None, Some (PathError "open" fn ENOENT)) w
  | Some _ =>
      if Encrypted p then
        if bool_decide (valid_key_length (length key)) then
          Done (Some {| pr_ReadCloser := RC_Stream (ofb_at key 0) (file_at fn 0);
                        pr_paste := l |}, None) w
        else Panicked w
      else Done (Some {| pr_ReadCloser := RC_File (file_at fn 0);
                         pr_paste := l |}, None) w
  end.
Proof.
  intros Hl. unfold readStream. rewrite bind_run, (load_run _ _ _ Hl).
  unfold os_Open. rewrite bind_run. cbn zeta.
  destruct (fs w !! filenameForID store (ID p)); [|reflexivity].
  destruct (Encrypted p); [|reflexivity].
  case_bool_decide as Hk.
  - by rewrite aes_NewCipher_valid.
  - by rewrite aes_NewCipher_invalid.
Qed.

Lemma writeStream_run store l p w : heap w !! l = Some p ->
  writeStream store l w =
  let fn := filenameForID store (ID p) in
  let key := bytes_of (encryptionKey p) in
  let opened x :=
    if Encrypted p then
      if bool_decide (valid_key_length (length key)) then
        Done (Some {| pw_WriteCloser := WC_Stream (ofb_at key 0) (file_at fn 0);
                      pw_paste := l |}, None) (created fn x w)
      else Panicked (created fn x w)
    else Done (Some {| pw_WriteCloser := WC_File (file_at fn 0);
                       pw_paste := l |}, None) (created fn x w) in
  match fs w !! fn with
  | None => opened ∅
  | Some f =>
      if f_writable f then opened (f_xattr f)
      else Done (None, Some (PathError "open" fn EACCES))
             (set_trace (trace w ++ [EvCreate fn]) w)
  end.
Proof.
  intros Hl. unfold writeStream. rewrite bind_run, (load_run _ _ _ Hl).
  unfold os_Create, log, step. rewrite !bind_run. cbn zeta. cbn [fs set_trace].
  destruct (fs w !! filenameForID store (ID p)) as [f|].
  - destruct (f_writable f); [|reflexivity].
    destruct (Encrypted p); [|reflexivity].
    case_bool_decide as Hk.
    + by rewrite aes_NewCipher_valid.
    + by rewrite aes_NewCipher_invalid.
  - destruct (Encrypted p); [|reflexivity].
    case_bool_decide as Hk.
    + by rewrite aes_NewCipher_valid.
    + by rewrite aes_NewCipher_invalid.
Qed.

Lemma WriteCloser_Close_run wc w :
  WriteCloser_Close wc w =
  let w' := set_trace (trace w ++ [EvClose (of_name (wc_file wc))]) w in
  if of_closed (wc_file wc) then Done (Some ErrClosed, wc) w'
  else Done (None, wc_closed wc) w'.
Proof.
  destruct wc as [f|s f]; unfold WriteCloser_Close, File_Close, log;
    rewrite !bind_run; cbn; destruct f as [n o []]; reflexivity.
Qed.

Lemma PasteWriter_Close_run pw w :
  PasteWriter_Close pw w =
  match Paste_Save (pw_paste pw) w with
  | Done _ w1 =>
      match WriteCloser_Close (pw_WriteCloser pw) w1 with
      | Done (err, wc) w2 =>
          Done (err, {| pw_WriteCloser := wc; pw_paste := pw_paste pw |}) w2
      | Panicked w2 => Panicked w2
      end
  | Panicked w1 => Panicked w1
  end.
Proof.
  unfold PasteWriter_Close. rewrite bind_run.
  destruct (Paste_Save (pw_paste pw) w) as [serr w1|w1]; [|reflexivity].
  rewrite bind_run.
  destruct (WriteCloser_Close (pw_WriteCloser pw) w1) as [[err wc] w2|w2];
    reflexivity.
Qed.

Lemma Paste_Save_run l p w : heap w !! l = Some p ->
  Paste_Save l w = Save (store p) l w.
Proof. intros Hl. unfold Paste_Save. by rewrite bind_run, (load_run _ _ _ Hl). Qed.
End StreamRuns.

(** ** The cipher streams *)

Section CipherStreams.
Context `{Ext : Externals}.

Lemma xor_from_length b iv pos src : length (xor_from b iv pos src) = length src.
Proof. revert pos. induction src as [|s src IH]; intros pos; cbn; [done|]. by rewrite IH. Qed.

Lemma xor_from_app b iv pos l1 l2 :
  xor_from b iv pos (l1 ++ l2)
  = xor_from b iv pos l1 ++ xor_from b iv (pos + length l1) l2.
Proof.
  revert pos. induction l1 as [|s l1 IH]; intros pos; cbn [app xor_from length].
  - by rewrite Nat.add_0_r.
  - rewrite IH. do 3 f_equal. lia.
Qed.

Lemma xor_from_involutive b iv pos src :
  xor_from b iv pos (xor_from b iv pos src) = src.
Proof.
  revert pos. induction src as [|s src IH]; intros pos; cbn [xor_from]; [done|].
  by rewrite byte_xor_involutive, IH.
Qed.

Lemma take_drop_length {A} (n : nat) (l : list A) :
  l = take n l ++ drop (length (take n l)) l.
Proof.
  destruct (le_lt_dec n (length l)) as [H|H].
  - by rewrite length_take_le, take_drop.
  - rewrite take_ge by lia. by rewrite drop_all, app_nil_r.
Qed.

Lemma write_at_end (old data : list byte) :
  write_at old (length old) data = old ++ data.
Proof.
  unfold write_at. rewrite Nat.sub_diag. cbn [repeat]. rewrite app_nil_r.
  rewrite firstn_all, skipn_all2 by lia. by rewrite app_nil_r.
Qed.

Abbreviation enc key pos src := (xor_from {| block_key := key |} zero_iv pos src).

Lemma PasteWriter_Write_cipher key name l pos c w file :
  fs w !! name = Some file ->
  PasteWriter_Write (cipher_writer key name pos l) c w
  = Done (length c, None, cipher_writer key name (pos + length c) l)
      {| fs := <[name := {| f_data := write_at (f_data file) pos (enc key pos c);
                            f_xattr := f_xattr file;
                            f_mtime := now w;
                            f_writable := f_writable file |}]> (fs w);
         heap := heap w;
         trace := trace w ++ [EvWrite name pos (enc key pos c)];
         now := now w |}.
Proof.
  intros Hf.
  unfold PasteWriter_Write, cipher_writer, ofb_at, file_at, WriteCloser_Write, StreamWriter_Write,
    XORKeyStream, File_Write, log, step.
  cbn [pw_WriteCloser pw_paste ofb_b ofb_iv ofb_used of_closed of_name of_offset].
  rewrite !bind_run. cbn [fs set_trace]. rewrite Hf.
  rewrite xor_from_length.
  rewrite bool_decide_eq_false_2 by (intros H; by apply H).
  reflexivity.
Qed.

Lemma PasteReader_Read_cipher key name l pos n w file :
  fs w !! name = Some file ->
  PasteReader_Read (cipher_reader key name pos l) n w
  = let got := firstn n (skipn pos (f_data file)) in
    match got, n with
    | [], S _ => Done ([], Some EOF, cipher_reader key name pos l) w
    | _, _ => Done (enc key pos got, None,
                    cipher_reader key name (pos + length got) l) w
    end.
Proof.
  intros Hf.
  unfold PasteReader_Read, cipher_reader, ofb_at, file_at, ReadCloser_Read, StreamReader_Read,
    XORKeyStream, File_Read.
  cbn [pr_ReadCloser pr_paste ofb_b ofb_iv ofb_used of_closed of_name of_offset].
  rewrite !bind_run. rewrite Hf. cbn zeta.
  destruct (firstn n (skipn pos (f_data file))) as [|g got]; [destruct n|];
    cbn; rewrite ?Nat.add_0_r; reflexivity.
Qed.

Lemma WriteAll_cipher key name l chunks : forall w file,
  fs w !! name = Some file ->
  exists w' file',
    WriteAll (cipher_writer key name (length (f_data file)) l) chunks w
    = Done (None, cipher_writer key name (length (f_data file')) l) w'
    /\ heap w' = heap w /\ now w' = now w
    /\ fs w' !! name = Some file'
    /\ f_data file' = f_data file ++ enc key (length (f_data file)) (concat chunks)
    /\ f_xattr file' = f_xattr file
    /\ f_writable file' = f_writable file.
Proof.
  induction chunks as [|c chunks IH]; intros w file Hf.
  - exists w, file. cbn [concat xor_from]. rewrite app_nil_r. repeat split; done.
  - cbn [WriteAll]. rewrite bind_run, (PasteWriter_Write_cipher _ _ _ _ _ _ file Hf).
    rewrite write_at_end.
    set (file1 := {| f_data := f_data file ++ enc key (length (f_data file)) c;
                     f_xattr := f_xattr file; f_mtime := now w;
                     f_writable := f_writable file |}).
    set (w1 := {| fs := <[name := file1]> (fs w); heap := heap w;
                  trace := _; now := now w |}).
    assert (Hf1 : fs w1 !! name = Some file1) by apply lookup_insert_eq.
    assert (Hlen : length (f_data file1) = length (f_data file) + length c).
    { subst file1. cbn [f_data]. by rewrite length_app, xor_from_length. }
    destruct (IH w1 file1 Hf1) as (w' & file' & Hrun & Hh & Hn & Hf' & Hd & Hx & Hw).
    exists w', file'. rewrite Hlen in Hrun, Hd. split; [exact Hrun|].
    repeat split; try done.
    rewrite Hd. subst file1. cbn [f_data concat].
    by rewrite xor_from_app, <- app_assoc.
Qed.

Lemma ReadAll_cipher key name l n w file : 0 < n ->
  fs w !! name = Some file ->
  forall fuel pos, pos <= length (f_data file) ->
    length (f_data file) - pos < fuel ->
    ReadAll fuel n (cipher_reader key name pos l) w
    = Done (Some (enc key pos (skipn pos (f_data file)), None)) w.
Proof.
  intros Hn Hf. induction fuel as [|fuel IH]; intros pos Hpos Hfuel; [lia|].
  cbn [ReadAll]. rewrite bind_run, (PasteReader_Read_cipher _ _ _ _ _ _ file Hf).
  cbn zeta.
  destruct (firstn n (skipn pos (f_data file))) as [|g got] eqn:Eg.
  - destruct n as [|n]; [lia|].
    destruct (skipn pos (f_data file)) as [|d rest] eqn:Es; [|discriminate].
    reflexivity.
  - assert (Hsplit : skipn pos (f_data file)
                     = (g :: got) ++ skipn (pos + length (g :: got)) (f_data file)).
    { rewrite <- Eg, <- drop_drop. apply take_drop_length. }
    assert (Hle : pos + length (g :: got) <= length (f_data file)).
    { apply (f_equal (@length byte)) in Hsplit.
      rewrite length_app, !length_skipn in Hsplit. cbn [length] in *. lia. }
    cbv beta iota.
    rewrite bind_run, IH by (cbn [length] in *; lia).
    rewrite Hsplit at 1. rewrite xor_from_app. reflexivity.
Qed.
End CipherStreams.

Lemma Encode_nonempty (src : list byte) :
  src ≠ [] -> base32.EncodeToString base32Encoder src ≠ "".
Proof.
  intros Hsrc. unfold base32.EncodeToString.
  destruct src as [|b0 [|b1 [|b2 [|b3 [|b4 rest]]]]]; [done| | | | |];
    cbn [base32.Encode base32.unpack firstn map app]; discriminate.
Qed.

(** ** The properties of the specification *)

Section RoundTrip.
Context `{Ext : Externals}.

Lemma New_run_key store id K w :
  New store id (Some K) w
  = Done (length (heap w), None) (set_heap (heap w ++ [keyed_paste store id K]) w).
Proof.
  unfold New, alloc. rewrite !bind_run.
  rewrite (modify_last _ (heap w) (fresh_paste store id zeroTime)) by reflexivity.
  rewrite (modify_last _ (heap w) (set_Encrypted true (fresh_paste store id zeroTime)))
    by reflexivity.
  reflexivity.
Qed.

(** C1. Round trip of an encrypted paste. For every payload, written
    in any number of chunks, and every key [K] of a length that AES
    accepts: create the paste with [K], write the payload through the
    write stream, close it, fetch with the same [K] and read the read
    stream to the end (any positive buffer size, fuel for one [Read]
    more than there are bytes); the result is exactly the payload, and
    the file holds its OFB encryption under [K] and the zero IV.
    Assumed of the outside: the file can be created, the MAC is never
    empty, and the base32 decoder inverts the encoder. *)
Theorem round_trip_encrypted st id K chunks fuel bufsize w :
  valid_key_length (length K) ->
  creatable (fs w) (filenameForID st id) ->
  (forall m k, constructMAC m k ≠ []) ->
  (forall b, base32_DecodeString base32Encoder
               (base32.EncodeToString base32Encoder b) = (b, None)) ->
  0 < bufsize ->
  length (concat chunks) < fuel ->
  exists w' f,
    round_trip st id (Some K) (Some K) chunks fuel bufsize w
    = Done (Some (concat chunks), None) w'
    /\ fs w' !! filenameForID st id = Some f
    /\ f_data f = xor_from {| block_key := K |} zero_iv 0 (concat chunks).
Proof.
  intros HK Hcr Hmac Hdec Hbuf Hfuel.
  set (fn := filenameForID st id).
  set (p0 := keyed_paste st id K).
  set (l := length (heap w)).
  unfold round_trip. rewrite bind_run, New_run_key. fold p0 l.
  set (w1 := set_heap (heap w ++ [p0]) w).
  assert (Hl1 : heap w1 !! l = Some p0) by (apply list_lookup_middle; reflexivity).
  (* open the write stream *)
  assert (Hopen : exists x,
    Paste_Writer l w1 = Done (Some (cipher_writer K fn 0 l), None) (created fn x w1)).
  { unfold Paste_Writer. rewrite bind_run, (load_run _ _ _ Hl1).
    rewrite (writeStream_run _ _ _ _ Hl1). cbn zeta.
    change (store p0) with st. change (ID p0) with id.
    change (Encrypted p0) with true.
    change (bytes_of (encryptionKey p0)) with K.
    rewrite (bool_decide_eq_true_2 _ HK). fold fn.
    unfold creatable in Hcr. fold fn in Hcr. change (fs w1) with (fs w).
    destruct (fs w !! fn) as [f|].
    - rewrite Hcr. by exists (f_xattr f).
    - by exists ∅. }
  destruct Hopen as [x Hopen]. rewrite bind_run, Hopen.
  set (w2 := created fn x w1).
  set (file2 := {| f_data := []; f_xattr := x; f_mtime := now w1;
                   f_writable := true |}).
  assert (Hf2 : fs w2 !! fn = Some file2) by apply lookup_insert_eq.
  (* write the payload *)
  destruct (WriteAll_cipher K fn l chunks w2 file2 Hf2)
    as (w3 & file3 & Hwrite & Hh3 & _ & Hf3 & Hd3 & Hx3 & Hw3).
  change (length (f_data file2)) with 0 in Hwrite, Hd3.
  change (f_data file2) with (@nil byte) in Hd3. cbn [app] in Hd3.
  change (f_writable file2) with true in Hw3.
  rewrite bind_run, Hwrite.
  (* close: persist the metadata, then close the file *)
  assert (Hl3 : heap w3 !! l = Some p0) by (rewrite Hh3; exact Hl1).
  rewrite bind_run, PasteWriter_Close_run.
  cbn [pw_paste cipher_writer pw_WriteCloser].
  rewrite (Paste_Save_run _ _ _ Hl3), (Save_run _ _ _ _ Hl3). cbn zeta.
  change (store p0) with st. change (ID p0) with id. fold fn.
  rewrite Hf3, Hw3.
  rewrite WriteCloser_Close_run. cbn [wc_file of_closed file_at]. cbn zeta.
  set (file4 := {| f_data := f_data file3; f_xattr := _; f_mtime := _;
                   f_writable := true |}).
  set (w5 := set_trace _ _).
  assert (Hf5 : fs w5 !! fn = Some file4) by apply lookup_insert_eq.
  assert (Hh5 : heap w5 = heap w3) by reflexivity.
  (* fetch with the same key *)
  assert (Htag : stored_metadata (fs w5) fn "hmac" "" = hmac_tag p0).
  { unfold stored_metadata. rewrite Hf5. subst file4. cbn [f_xattr].
    unfold metadata_of. change (Encrypted p0) with true.
    cbn [fold_left put_xattr fst snd].
    unfold put_xattr. cbn [fst snd String.append].
    rewrite lookup_insert_ne by done. rewrite lookup_insert_eq.
    apply string_of_list_byte_of_string. }
  rewrite bind_run, Get_run. cbn zeta. fold fn. rewrite Hf5, Htag.
  rewrite bool_decide_eq_true_2 by (apply Encode_nonempty, Hmac).
  unfold hmac_tag at 1. rewrite Hdec.
  unfold checkMAC. change (ID p0) with id. change (bytes_of (encryptionKey p0)) with K.
  rewrite bool_decide_eq_true_2 by reflexivity.
  set (p6 := set_Language _ _).
  set (w6 := {| fs := fs w5; heap := heap w5 ++ [p6]; trace := _; now := _ |}).
  assert (Hl6 : heap w6 !! length (heap w5) = Some p6)
    by (apply list_lookup_middle; reflexivity).
  (* open the read stream and read to the end *)
  rewrite bind_run. unfold Paste_Reader.
  rewrite bind_run, (load_run _ _ _ Hl6), (readStream_run _ _ _ _ Hl6). cbn zeta.
  change (store p6) with st. change (ID p6) with id.
  change (Encrypted p6) with true. change (bytes_of (encryptionKey p6)) with K.
  fold fn. change (fs w6) with (fs w5). rewrite Hf5.
  rewrite (bool_decide_eq_true_2 _ HK).
  fold (cipher_reader K fn 0 (length (heap w5))).
  assert (Hf6 : fs w6 !! fn = Some file4) by exact Hf5.
  assert (Hlen : length (f_data file4) = length (concat chunks)).
  { subst file4. cbn [f_data]. rewrite Hd3. apply xor_from_length. }
  rewrite bind_run,
    (ReadAll_cipher K fn _ bufsize w6 file4 Hbuf Hf6 fuel 0) by lia.
  rewrite drop_0. change (f_data file4) with (f_data file3).
  rewrite Hd3, xor_from_involutive.
  exists w6, file4. split; [reflexivity|]. split; [exact Hf6|]. exact Hd3.
Qed.
End RoundTrip.

Ltac case_decode mac e :=
  match goal with
  | |- context [@base32_DecodeString ?E ?enc ?t] =>
      destruct (@base32_DecodeString E enc t) as [mac [e|]]
  end.

Ltac case_checkMAC :=
  match goal with
  | |- context [if ?c then _ else _] => destruct c
  end.

Section Metadata.
Context `{Ext : Externals}.

(** C2. The outcomes of [Get]. With no file for [id] it fails with
    [PasteNotFoundError], whatever the key. With a file whose stored
    hmac tag is not empty: without a key the error is
    [PasteEncryptedError]; with a key, a decoding error of the tag is
    returned as it is, a tag that [checkMAC] rejects gives
    [PasteInvalidKeyError], and a tag that it accepts gives a paste that
    is marked encrypted and carries the key. *)
Theorem Get_outcomes st id key w :
  let fn := filenameForID st id in
  let tag := stored_metadata (fs w) fn "hmac" "" in
  (fs w !! fn = None ->
     Get st id key w = Done (None, Some (PasteNotFoundError id)) w)
  /\ (tag ≠ "" ->
      match key with
      | None =>
          exists p w', Get st id None w = Done (p, Some (PasteEncryptedError id)) w'
      | Some k =>
          match base32_DecodeString base32Encoder tag with
          | (_, Some e) => exists w', Get st id (Some k) w = Done (None, Some e) w'
          | (mac, None) =>
              if checkMAC (list_byte_of_string (PasteID_String id)) mac k
              then exists l w' p,
                     Get st id (Some k) w = Done (Some l, None) w'
                     /\ heap w' !! l = Some p
                     /\ ID p = id /\ Encrypted p = true
                     /\ encryptionKey p = Some k
              else exists w',
                     Get st id (Some k) w
                     = Done (None, Some (PasteInvalidKeyError id)) w'
          end
      end).
Proof.
  intros fn tag; subst fn tag. split.
  - intros Hnone. rewrite Get_run. cbn zeta. by rewrite Hnone.
  - intros Htag.
    assert (Hf : exists f, fs w !! filenameForID st id = Some f).
    { unfold stored_metadata in Htag.
      destruct (fs w !! filenameForID st id) as [f|]; [eauto | done]. }
    destruct Hf as [f Hf].
    destruct key as [k|]; rewrite Get_run; cbn zeta;
      rewrite Hf, (bool_decide_eq_true_2 _ Htag); [|eauto].
    case_decode mac e; [eauto|].
    case_checkMAC; [|eauto].
    do 3 eexists. split; [reflexivity|]. cbn [heap].
    split; [apply list_lookup_middle; reflexivity|]. done.
Qed.

(** C5, as amended. [Get] always returns, and it calls the update
    callback exactly once when it returns a paste and not at all when it
    returns none. It returns a paste exactly on success and on the
    EncryptionRequired outcome (no key given for an encrypted paste),
    where the paste comes together with the error; on NotFound,
    InvalidKey and a tag-decoding failure no paste is returned and the
    callback is not called. *)
Theorem Get_update_callback st id key w :
  match Get st id key w with
  | Done (p, err) w' =>
      new_events w w'
      = match p with
        | Some l => [EvPasteUpdateCallback (PasteUpdateCallback st) l]
        | None => []
        end
      /\ (is_Some p <->
          err = None \/ (key = None /\ err = Some (PasteEncryptedError id)))
  | Panicked _ => False
  end.
Proof.
  rewrite Get_run. cbn zeta.
  assert (Hnil : forall w0 : World, new_events w0 w0 = [])
    by (intros w0; unfold new_events; apply drop_all).
  assert (Hnil' : forall h, new_events w (set_heap h w) = [])
    by (intros h; unfold new_events; apply drop_all).
  assert (Hnone : forall (e : option error) P, (is_Some (@None loc) <-> P) <-> ~ P).
  { intros e P. split.
    - intros [_ H] HP. by destruct (H HP).
    - intros H. split; [by intros [? ?] | tauto]. }
  destruct (fs w !! filenameForID st id) as [f|].
  2:{ split; [apply Hnil|]. apply (Hnone None). intros [?|[_ ?]]; discriminate. }
  case_bool_decide.
  - destruct key as [k|].
    + case_decode mac e.
      * split; [apply Hnil'|]. apply (Hnone None). intros [?|[? _]]; discriminate.
      * case_checkMAC.
        -- split; [by apply new_events_app|]. split; [auto|eauto].
        -- split; [apply Hnil'|]. apply (Hnone None).
           intros [?|[? _]]; discriminate.
    + split; [by apply new_events_app|]. split; [auto|eauto].
  - split; [by apply new_events_app|]. split; [auto|eauto].
Qed.

(** C3. What [Save] persists. [Save] makes no call other than a prefix
    of: the attribute writes of [metadata_of p] (language; and, for an
    encrypted paste, the base32 text of the MAC of the identifier's
    bytes under the key, as [user.paste.hmac], and ["1"] as
    [user.paste.encryption_version]) followed by the update callback.
    Afterwards every file has the content it had, and every attribute
    either had that value before or is one of [metadata_of p] on the
    paste's own file. The key enters only through [constructMAC]. *)
Theorem Save_persists_only_tag st l p w :
  heap w !! l = Some p ->
  let fn := filenameForID st (ID p) in
  exists err w',
    Save st l w = Done err w'
    /\ heap w' = heap w
    /\ (exists k, new_events w w' = firstn k (persist_events st l p))
    /\ (forall name f', fs w' !! name = Some f' ->
          exists f, fs w !! name = Some f
            /\ f_data f' = f_data f
            /\ forall attr v, f_xattr f' !! attr = Some v ->
                 f_xattr f !! attr = Some v
                 \/ (name = fn /\ In (attr, v) (metadata_of p))).
Proof.
  intros Hl fn. rewrite (Save_run _ _ _ _ Hl). cbn zeta. fold fn.
  assert (Hfirst : forall t, new_events w (set_trace (trace w ++ [EvSetxattr fn
                     "user.paste.language" (list_byte_of_string (Language p))]) t)
                   = firstn 1 (persist_events st l p))
    by (intros t; by apply new_events_app).
  destruct (fs w !! fn) as [f|] eqn:Ef.
  - destruct (f_writable f) eqn:Wf.
    + do 2 eexists. split; [reflexivity|]. cbn [heap fs trace].
      split; [reflexivity|]. split.
      * exists (length (persist_events st l p)). rewrite firstn_all.
        by apply new_events_app.
      * intros name f' Hf'. destruct (decide (fn = name)) as [<-|Hne].
        -- rewrite lookup_insert_eq in Hf'. injection Hf' as <-.
           exists f. split; [exact Ef|]. split; [reflexivity|]. cbn [f_xattr].
           intros attr v. unfold metadata_of.
           destruct (Encrypted p); cbn [fold_left]; unfold put_xattr; cbn [fst snd];
             rewrite !lookup_insert; repeat case_decide; intros Hv;
             try (injection Hv as <-; subst attr; right; split; [done|];
                  cbn; tauto);
             by left.
        -- rewrite lookup_insert_ne in Hf' by done.
           exists f'. split; [done|]. split; [done|]. intros; by left.
    + do 2 eexists. split; [reflexivity|]. cbn [heap fs set_trace].
      split; [reflexivity|]. split; [exists 1; apply Hfirst|].
      intros name f' Hf'. exists f'. repeat split; auto.
  - do 2 eexists. split; [reflexivity|]. cbn [heap fs set_trace].
    split; [reflexivity|]. split; [exists 1; apply Hfirst|].
    intros name f' Hf'. exists f'. repeat split; auto.
Qed.

Lemma put_metadata_twice (p : Paste) (x : gmap string (list byte)) :
  fold_left put_xattr (metadata_of p) (fold_left put_xattr (metadata_of p) x)
  = fold_left put_xattr (metadata_of p) x.
Proof.
  unfold metadata_of. destruct (Encrypted p); cbn [fold_left]; unfold put_xattr; cbn [fst snd];
    apply map_eq; intros i; rewrite !lookup_insert; repeat case_decide; done.
Qed.

(** C8. [Save] twice on an unchanged paste: both calls return the same
    result and make the same calls with the same values, the paste is
    unchanged in between, and the file system after the second call is
    the file system after the first. *)
Theorem Save_idempotent st l p w :
  heap w !! l = Some p ->
  exists err w1 w2,
    Save st l w = Done err w1
    /\ Save st l w1 = Done err w2
    /\ heap w1 !! l = Some p
    /\ fs w2 = fs w1
    /\ new_events w1 w2 = new_events w w1.
Proof.
  intros Hl. rewrite (Save_run _ _ _ _ Hl). cbn zeta.
  set (fn := filenameForID st (ID p)).
  destruct (fs w !! fn) as [f|] eqn:Ef.
  - destruct (f_writable f) eqn:Wf.
    + do 3 eexists. split; [reflexivity|].
      rewrite (Save_run _ _ p) by exact Hl. cbn zeta. fold fn. cbn [fs].
      rewrite lookup_insert_eq. cbn [f_writable].
      split; [reflexivity|]. split; [exact Hl|]. cbn [fs heap trace f_data f_xattr f_mtime].
      split.
      * by rewrite insert_insert_eq, put_metadata_twice.
      * rewrite (new_events_app _ _ (persist_events st l p)) by reflexivity.
        by rewrite (new_events_app _ _ (persist_events st l p)) by reflexivity.
    + do 3 eexists. split; [reflexivity|].
      rewrite (Save_run _ _ p) by exact Hl. cbn zeta. fold fn. cbn [fs set_trace].
      rewrite Ef, Wf. split; [reflexivity|]. split; [exact Hl|].
      split; [reflexivity|].
      by rewrite !(new_events_app _ _ [EvSetxattr fn "user.paste.language"
                     (list_byte_of_string (Language p))]) by reflexivity.
  - do 3 eexists. split; [reflexivity|].
    rewrite (Save_run _ _ p) by exact Hl. cbn zeta. fold fn. cbn [fs set_trace].
    rewrite Ef. split; [reflexivity|]. split; [exact Hl|].
    split; [reflexivity|].
    by rewrite !(new_events_app _ _ [EvSetxattr fn "user.paste.language"
                   (list_byte_of_string (Language p))]) by reflexivity.
Qed.
End Metadata.

Section Lifecycle.
Context `{Ext : Externals}.

Lemma Save_total st l p w : heap w !! l = Some p ->
  exists serr w1, Save st l w = Done serr w1
    /\ exists evs, trace w1 = trace w ++ evs.
Proof.
  intros Hl. rewrite (Save_run _ _ _ _ Hl). cbn zeta.
  destruct (fs w !! _) as [f|]; [destruct (f_writable f)|];
    do 2 eexists; (split; [reflexivity|]); eexists; reflexivity.
Qed.

(** C4, as amended. [Close] of a write stream first runs [Save] on the
    owning paste and only then closes the raw stream: the calls of
    [Close] are the calls of that [Save] followed by the close of the
    underlying file, which leaves the file system as [Save] left it. *)
Theorem Close_persists_then_closes pw w p :
  heap w !! pw_paste pw = Some p ->
  exists serr w1 err pw' w2,
    Save (store p) (pw_paste pw) w = Done serr w1
    /\ PasteWriter_Close pw w = Done (err, pw') w2
    /\ new_events w w2
       = new_events w w1 ++ [EvClose (of_name (wc_file (pw_WriteCloser pw)))]
    /\ fs w2 = fs w1.
Proof.
  intros Hl.
  destruct (Save_total (store p) _ _ _ Hl) as (serr & w1 & HS & evs & Ht).
  rewrite PasteWriter_Close_run, (Paste_Save_run _ _ _ Hl), HS.
  rewrite WriteCloser_Close_run. cbn zeta.
  exists serr, w1.
  destruct (of_closed (wc_file (pw_WriteCloser pw)));
    do 3 eexists; (split; [reflexivity|]); (split; [reflexivity|]);
    (split; [|reflexivity]);
    rewrite (new_events_app w w1 evs Ht);
    apply new_events_app; cbn [trace set_trace]; by rewrite Ht, app_assoc.
Qed.

(** C10. [Close] of a write stream returns the result of closing the
    underlying stream, whatever [Save] returned; and there is a stream
    and a world in which [Save] fails while [Close] reports success. *)
Theorem Close_ignores_Save_result :
  (forall pw w serr w1 err wc w2,
      Paste_Save (pw_paste pw) w = Done serr w1 ->
      WriteCloser_Close (pw_WriteCloser pw) w1 = Done (err, wc) w2 ->
      PasteWriter_Close pw w
      = Done (err, {| pw_WriteCloser := wc; pw_paste := pw_paste pw |}) w2)
  /\ (exists pw w serr w1 pw' w2,
        Paste_Save (pw_paste pw) w = Done (Some serr) w1
        /\ PasteWriter_Close pw w = Done (None, pw') w2).
Proof.
  split.
  - intros pw w serr w1 err wc w2 HS HC.
    by rewrite PasteWriter_Close_run, HS, HC.
  - set (st := NewFilesystemPasteStore "/pastes").
    set (p := fresh_paste st "abcde" zeroTime).
    set (pw := {| pw_WriteCloser := WC_File (file_at (filenameForID st "abcde") 0);
                  pw_paste := 0 |}).
    set (w := {| fs := ∅; heap := [p]; trace := []; now := 0%Z |}).
    assert (Hl : heap w !! 0 = Some p) by reflexivity.
    assert (HS : Paste_Save 0 w
                 = Done (Some (PathError "setxattr" (filenameForID st "abcde") ENOENT))
                     (set_trace (trace w ++ [EvSetxattr (filenameForID st "abcde")
                        "user.paste.language" []]) w)).
    { rewrite (Paste_Save_run _ _ _ Hl), (Save_run _ _ _ _ Hl). cbn zeta.
      change (fs w) with (∅ : gmap string File). by rewrite lookup_empty. }
    exists pw, w. do 4 eexists. split; [exact HS|].
    rewrite PasteWriter_Close_run. change (pw_paste pw) with 0. rewrite HS.
    rewrite WriteCloser_Close_run. reflexivity.
Qed.

(** C9. For an encrypted paste, [readStream] and [writeStream] return
    without error only if the key has a length that AES accepts (16, 24
    or 32 bytes). With any other length, once the file is opened
    (created), the stream construction panics; no error is returned.
    With a valid length and a file that can be opened (created) they
    return a stream. *)
Theorem streams_need_valid_key st l p w :
  heap w !! l = Some p -> Encrypted p = true ->
  let fn := filenameForID st (ID p) in
  let k := length (bytes_of (encryptionKey p)) in
  (forall r w', readStream st l w = Done (r, None) w' -> valid_key_length k)
  /\ (forall r w', writeStream st l w = Done (r, None) w' -> valid_key_length k)
  /\ (~ valid_key_length k -> is_Some (fs w !! fn) ->
      readStream st l w = Panicked w)
  /\ (~ valid_key_length k -> creatable (fs w) fn ->
      exists w', writeStream st l w = Panicked w')
  /\ (valid_key_length k -> is_Some (fs w !! fn) ->
      exists pr, readStream st l w = Done (Some pr, None) w)
  /\ (valid_key_length k -> creatable (fs w) fn ->
      exists pw w', writeStream st l w = Done (Some pw, None) w').
Proof.
  intros Hl Hp fn k.
  rewrite (readStream_run _ _ _ _ Hl), (writeStream_run _ _ _ _ Hl).
  cbn zeta. fold fn k. rewrite Hp. unfold creatable.
  destruct (fs w !! fn) as [f|]; [destruct (f_writable f)|];
    case_bool_decide as Hk;
    repeat split; try done; try (intros; exfalso; by auto);
    try (intros _ []; discriminate);
    try (by intros; eauto); intros _ Hs; by apply is_Some_None in Hs.
Qed.

(** C7. [Destroy] returns; it succeeds exactly when the file of the
    paste exists and otherwise returns the error of the removal, leaving
    the file system as it was. It calls the destroy callback, once,
    exactly on success. After a successful [Destroy] the file is gone
    and [Get] of the same identifier fails with [PasteNotFoundError],
    with or without a key. *)
Theorem Destroy_then_Get st l p w :
  heap w !! l = Some p ->
  let fn := filenameForID st (ID p) in
  exists err w',
    Destroy st l w = Done err w'
    /\ (err = None <-> is_Some (fs w !! fn))
    /\ (fs w !! fn = None ->
        err = Some (PathError "remove" fn ENOENT) /\ fs w' = fs w)
    /\ new_events w w'
       = EvRemove fn
         :: match err with
            | None => [EvPasteDestroyCallback (PasteDestroyCallback st) l]
            | Some _ => []
            end
    /\ (err = None ->
        fs w' !! fn = None
        /\ forall key,
             Get st (ID p) key w'
             = Done (None, Some (PasteNotFoundError (ID p))) w').
Proof.
  intros Hl fn. rewrite (Destroy_run _ _ _ _ Hl). cbn zeta. fold fn.
  destruct (fs w !! fn) as [f|] eqn:Ef.
  - do 2 eexists. split; [reflexivity|]. split; [split; eauto|].
    split; [discriminate|]. split; [by apply new_events_app|].
    intros _. cbn [fs]. split; [apply lookup_delete_eq|].
    intros key. rewrite Get_run. cbn zeta. fold fn. cbn [fs].
    by rewrite lookup_delete_eq.
  - do 2 eexists. split; [reflexivity|].
    split; [split; [discriminate | by intros []]|].
    split; [done|]. split; [by apply new_events_app|]. discriminate.
Qed.
End Lifecycle.

Lemma substring_5 (c0 c1 c2 c3 c4 : byte) (rest : list byte) :
  substring 0 5 (string_of_list_byte (c0 :: c1 :: c2 :: c3 :: c4 :: rest))
  = string_of_list_byte [c0; c1; c2; c3; c4].
Proof.
  unfold string_of_list_byte. cbn [map string_of_list_ascii substring].
  by destruct (string_of_list_ascii (map ascii_of_byte rest)).
Qed.

(** C6. Under the contract of [rand.Read], [generatePasteID] returns
    the error of the random source, so it fails only when that source
    fails; and an identifier returned without error has 5 symbols, all
    of the alphabet [abcdefghjkmnopqrstuvwxyz23456789], and is the
    encoding of the first five 5-bit groups of the 3 random bytes. *)
Theorem generatePasteID_shape (rand_Read : RandRead) :
  rand_contract rand_Read ->
  let '(n, uuid, rerr) := rand_Read (repeat "000"%byte 3) in
  let '(id, err) := generatePasteID rand_Read in
  err = rerr
  /\ (err = None ->
      String.length id = 5
      /\ Forall (fun c => In c (list_byte_of_string alphabet))
           (list_byte_of_string id)
      /\ exists b0 b1 b2,
           uuid = [b0; b1; b2]
           /\ id = string_of_list_byte
                     (map (base32.symbol base32Encoder)
                        (firstn 5 (base32.unpack (Byte.to_N b0) (Byte.to_N b1)
                                     (Byte.to_N b2) 0 0)))).
Proof.
  intros Hc. unfold generatePasteID.
  specialize (Hc (repeat "000"%byte 3)).
  destruct (rand_Read (repeat "000"%byte 3)) as [[n uuid] rerr].
  destruct Hc as [Hlen Hn]. cbn [repeat length] in Hlen, Hn.
  destruct rerr as [e|].
  - rewrite orb_true_r. split; [reflexivity | discriminate].
  - rewrite Hlen, (proj2 Hn eq_refl).
    rewrite bool_decide_eq_false_2 by (intros H; by apply H).
    rewrite bool_decide_eq_false_2 by (intros H; by apply H).
    cbn [orb]. split; [reflexivity|]. intros _.
    destruct uuid as [|b0 [|b1 [|b2 [|]]]]; try discriminate.
    unfold PasteIDFromString, base32.EncodeToString.
    cbn [base32.Encode base32.unpack firstn map app repeat].
    rewrite substring_5.
    pose proof (unpack_bytes_lt b0 b1 b2 "000"%byte "000"%byte) as Hq.
    rewrite to_N_zero in Hq. unfold base32.unpack in Hq.
    split; [reflexivity|]. split.
    + rewrite list_byte_of_string_of_list_byte.
      repeat match goal with
             | H : Forall _ (_ :: _) |- _ =>
                 apply Forall_cons_1 in H; destruct H as [? H]
             end.
      repeat apply Forall_cons_2; try apply Forall_nil_2;
        by apply symbol_facts.
    + exists b0, b1, b2. split; reflexivity.
Qed.

(** ** The properties on concrete inputs *)

Section Concrete.
Import Ref.

Lemma MAC_nonempty (m k : list byte) : Ref.MAC m k ≠ [].
Proof. discriminate. Qed.

Lemma rand_fixed_contract (b0 b1 b2 : byte) : rand_contract (rand_fixed b0 b1 b2).
Proof.
  intros b. unfold rand_fixed. split; [|done].
  rewrite length_app, repeat_length, length_take. cbn [length]. lia.
Qed.

Lemma heap_world_encrypted : heap world_encrypted !! 0 = Some paste_encrypted.
Proof. vm_compute. reflexivity. Qed.

Lemma file_world_encrypted :
  fs world_encrypted !! filenameForID store0 "abcde"
  = Some {| f_data := xor_from {| block_key := key32 |} zero_iv 0 secret;
            f_xattr := fold_left put_xattr (metadata_of paste_encrypted) ∅;
            f_mtime := 1000%Z; f_writable := true |}.
Proof. vm_compute. reflexivity. Qed.

Lemma round_trip_encrypted_witness :
  valid_key_length (length key32)
  /\ creatable (fs world0) (filenameForID store0 "abcde")
  /\ 0 < 4 /\ length (concat [secret]) < 10
  /\ exists w' f,
       round_trip store0 "abcde" (Some key32) (Some key32) [secret] 10 4 world0
       = Done (Some (concat [secret]), None) w'
       /\ fs w' !! filenameForID store0 "abcde" = Some f
       /\ f_data f = xor_from {| block_key := key32 |} zero_iv 0 (concat [secret]).
Proof.
  assert (H1 : valid_key_length (length key32)) by (right; right; reflexivity).
  assert (H2 : creatable (fs world0) (filenameForID store0 "abcde"))
    by (vm_compute; exact I).
  assert (H3 : 0 < 4) by lia.
  assert (H4 : length (concat [secret]) < 10) by (vm_compute; lia).
  repeat split; try assumption.
  exact (round_trip_encrypted store0 "abcde" key32 [secret] 10 4 world0
           H1 H2 MAC_nonempty DecodeString_EncodeToString H3 H4).
Defined.

Lemma Get_outcomes_witness :
  stored_metadata (fs world_encrypted) (filenameForID store0 "abcde") "hmac" "" ≠ ""
  /\ (exists p w', Get store0 "abcde" None world_encrypted
                   = Done (p, Some (PasteEncryptedError "abcde")) w')
  /\ (exists l w' p,
        Get store0 "abcde" (Some key32) world_encrypted = Done (Some l, None) w'
        /\ heap w' !! l = Some p /\ ID p = "abcde" /\ Encrypted p = true
        /\ encryptionKey p = Some key32)
  /\ (exists w', Get store0 "abcde" (Some (repeat "255"%byte 32)) world_encrypted
                 = Done (None, Some (PasteInvalidKeyError "abcde")) w').
Proof.
  assert (H2 : stored_metadata (fs world_encrypted) (filenameForID store0 "abcde")
                 "hmac" "" ≠ "") by (vm_compute; discriminate).
  split; [exact H2|]. split; [|split].
  - exact (proj2 (Get_outcomes store0 "abcde" None world_encrypted) H2).
  - pose proof (proj2 (Get_outcomes store0 "abcde" (Some key32) world_encrypted)
                  H2) as H.
    exact H.
  - pose proof (proj2 (Get_outcomes store0 "abcde" (Some (repeat "255"%byte 32))
                         world_encrypted) H2) as H.
    exact H.
Defined.

Lemma heap_world_open : heap world_open !! pw_paste writer0
                        = Some (fresh_paste store0 "abcde" zeroTime).
Proof. reflexivity. Qed.

Lemma Save_persists_only_tag_witness :
  heap world_encrypted !! 0 = Some paste_encrypted
  /\ exists err w',
       Save store0 0 world_encrypted = Done err w'
       /\ heap w' = heap world_encrypted
       /\ (exists k, new_events world_encrypted w'
                     = firstn k (persist_events store0 0 paste_encrypted))
       /\ (forall name f', fs w' !! name = Some f' ->
             exists f, fs world_encrypted !! name = Some f
               /\ f_data f' = f_data f
               /\ forall attr v, f_xattr f' !! attr = Some v ->
                    f_xattr f !! attr = Some v
                    \/ (name = filenameForID store0 (ID paste_encrypted)
                        /\ In (attr, v) (metadata_of paste_encrypted))).
Proof.
  split; [exact heap_world_encrypted|].
  exact (Save_persists_only_tag store0 0 paste_encrypted world_encrypted
           heap_world_encrypted).
Defined.

Lemma Save_idempotent_witness :
  heap world_encrypted !! 0 = Some paste_encrypted
  /\ exists err w1 w2,
       Save store0 0 world_encrypted = Done err w1
       /\ Save store0 0 w1 = Done err w2
       /\ heap w1 !! 0 = Some paste_encrypted
       /\ fs w2 = fs w1
       /\ new_events w1 w2 = new_events world_encrypted w1.
Proof.
  split; [exact heap_world_encrypted|].
  exact (Save_idempotent store0 0 paste_encrypted world_encrypted
           heap_world_encrypted).
Defined.

Lemma Destroy_then_Get_witness :
  heap world_encrypted !! 0 = Some paste_encrypted
  /\ exists err w',
       Destroy store0 0 world_encrypted = Done err w'
       /\ err = None
       /\ forall key,
            Get store0 "abcde" key w'
            = Done (None, Some (PasteNotFoundError "abcde")) w'.
Proof.
  split; [exact heap_world_encrypted|].
  destruct (Destroy_then_Get store0 0 paste_encrypted world_encrypted
              heap_world_encrypted) as (err & w' & HD & Hok & _ & _ & HG).
  assert (He : err = None).
  { apply Hok. change (ID paste_encrypted) with "abcde".
    rewrite file_world_encrypted. eauto. }
  exists err, w'. split; [exact HD|]. split; [exact He|]. exact (proj2 (HG He)).
Defined.

Lemma streams_need_valid_key_witness :
  heap world_encrypted !! 0 = Some paste_encrypted
  /\ Encrypted paste_encrypted = true
  /\ valid_key_length (length (bytes_of (encryptionKey paste_encrypted)))
  /\ is_Some (fs world_encrypted !! filenameForID store0 (ID paste_encrypted))
  /\ exists pr, readStream store0 0 world_encrypted
                = Done (Some pr, None) world_encrypted.
Proof.
  assert (H1 : valid_key_length (length (bytes_of (encryptionKey paste_encrypted))))
    by (right; right; reflexivity).
  assert (H2 : is_Some (fs world_encrypted
                          !! filenameForID store0 (ID paste_encrypted)))
    by (change (ID paste_encrypted) with "abcde";
        rewrite file_world_encrypted; eauto).
  split; [exact heap_world_encrypted|]. split; [reflexivity|].
  split; [exact H1|]. split; [exact H2|].
  exact (proj1 (proj2 (proj2 (proj2 (proj2
           (streams_need_valid_key store0 0 paste_encrypted world_encrypted
              heap_world_encrypted eq_refl))))) H1 H2).
Defined.

Lemma Close_persists_then_closes_witness :
  heap world_open !! pw_paste writer0 = Some (fresh_paste store0 "abcde" zeroTime)
  /\ exists serr w1 err pw' w2,
       Save store0 (pw_paste writer0) world_open = Done serr w1
       /\ PasteWriter_Close writer0 world_open = Done (err, pw') w2
       /\ new_events world_open w2
          = new_events world_open w1
              ++ [EvClose (of_name (wc_file (pw_WriteCloser writer0)))]
       /\ fs w2 = fs w1.
Proof.
  split; [exact heap_world_open|].
  exact (Close_persists_then_closes writer0 world_open
           (fresh_paste store0 "abcde" zeroTime) heap_world_open).
Defined.

Lemma generatePasteID_shape_witness :
  rand_contract (rand_fixed "001" "002" "003")
  /\ generatePasteID (rand_fixed "001" "002" "003") = ("aebag", None)
  /\ String.length "aebag" = 5
  /\ Forall (fun c => In c (list_byte_of_string alphabet))
       (list_byte_of_string "aebag").
Proof.
  pose proof (generatePasteID_shape (rand_fixed "001" "002" "003")
                (rand_fixed_contract "001" "002" "003")) as H.
  change (rand_fixed "001" "002" "003" (repeat "000"%byte 3))
    with (3, ["001"; "002"; "003"]%byte, @None error) in H.
  change (generatePasteID (rand_fixed "001" "002" "003"))
    with ("aebag", @None error) in H.
  destruct H as [_ H]. destruct (H eq_refl) as (H5 & Hin & _).
  split; [apply rand_fixed_contract|]. split; [reflexivity|].
  split; [exact H5 | exact Hin].
Defined.

(** The paste is destroyed while its writer is open: [Save] then fails
    and [Close] still reports success. *)
Lemma Close_ignores_Save_result_witness :
  (New store0 "abcde" None ≫= fun r => Paste_Writer r.1) world0
  = Done (Some writer0, None) world_open
  /\ Paste_Destroy (pw_paste writer0) world_open = Done None world_destroyed
  /\ exists serr w1 wc w2,
       Paste_Save (pw_paste writer0) world_destroyed = Done (Some serr) w1
       /\ WriteCloser_Close (pw_WriteCloser writer0) w1 = Done (None, wc) w2
       /\ PasteWriter_Close writer0 world_destroyed
          = Done (None, {| pw_WriteCloser := wc; pw_paste := pw_paste writer0 |}) w2.
Proof.
  split; [vm_compute; reflexivity|]. split; [vm_compute; reflexivity|].
  do 4 eexists.
  assert (HS : Paste_Save (pw_paste writer0) world_destroyed
               = Done (Some (PathError "setxattr" file0 ENOENT))
                   (world_of (Paste_Save (pw_paste writer0) world_destroyed)))
    by (vm_compute; reflexivity).
  assert (HC : WriteCloser_Close (pw_WriteCloser writer0)
                 (world_of (Paste_Save (pw_paste writer0) world_destroyed))
               = Done (None, wc_closed (pw_WriteCloser writer0))
                   (world_of (WriteCloser_Close (pw_WriteCloser writer0)
                      (world_of (Paste_Save (pw_paste writer0) world_destroyed)))))
    by (vm_compute; reflexivity).
  split; [exact HS|]. split; [exact HC|].
  exact (proj1 Close_ignores_Save_result writer0 world_destroyed _ _ _ _ _ HS HC).
Defined.

(** Counterexample to C4 as it is stated: in the calls that [Close]
    makes, the attribute write and the update callback of the persist
    come first and the close of the raw stream comes last. *)
Lemma Close_closes_last :
  (New store0 "abcde" None ≫= fun r => Paste_Writer r.1) world0
  = Done (Some writer0, None) world_open
  /\ match PasteWriter_Close writer0 world_open with
     | Done (err, _) w' =>
         err = None
         /\ new_events world_open w'
            = [ EvSetxattr file0 "user.paste.language" [];
                EvPasteUpdateCallback (externalCallback "update") 0;
                EvClose file0 ]
         /\ close_before_persist (new_events world_open w') = false
     | Panicked _ => False
     end.
Proof. split; [vm_compute; reflexivity|]. vm_compute. repeat split. Qed.

(** Counterexample to C5 as it is stated: fetching an encrypted paste
    without a key is an error outcome (EncryptionRequired), and the
    update callback is invoked on it. *)
Lemma Get_calls_back_on_EncryptionRequired :
  match Get store0 "abcde" None world_encrypted with
  | Done (p, err) w' =>
      err = Some (PasteEncryptedError "abcde")
      /\ p = Some 2
      /\ new_events world_encrypted w'
         = [EvPasteUpdateCallback (externalCallback "update") 2]
      /\ existsb is_PasteUpdateCallback (new_events world_encrypted w') = true
  | Panicked _ => False
  end.
Proof. vm_compute. repeat split. Qed.

End Concrete.

(** * Further properties of the store *)

Lemma attr_name_inj (a b : string) :
  ("user.paste." ++ a)%string = ("user.paste." ++ b)%string -> a = b.
Proof. cbn. intros H. by simplify_eq. Qed.

Ltac last_modified :=
  unfold Paste_LastModified; rewrite bind_run;
  erewrite load_run by (apply list_lookup_middle; reflexivity);
  reflexivity.

Ltac paste_fields :=
  cbn [ID store mtime Language Encrypted encryptionKey
       set_Language set_Encrypted set_encryptionKey fresh_paste].

Section StoreFacts.
Context `{Ext : Externals}.

Lemma New_run st id key w :
  New st id key w
  = Done (length (heap w), None) (set_heap (heap w ++ [new_paste st id key]) w).
Proof.
  destruct key as [k|]; [apply New_run_key|].
  unfold New, alloc. rewrite !bind_run. reflexivity.
Qed.

(** X1. [New] works in memory only. It returns a fresh address and a nil
    error, leaves the file system and the log as they are, and puts in
    the heap a paste with the given identifier and store, an empty
    language, the zero modification time, the given key, and the
    encrypted flag set exactly when the key is not nil (an empty key
    counts as a key). While no file exists for the identifier, [Get]
    still fails with [PasteNotFoundError]. *)
Theorem New_in_memory st id key w :
  exists w',
    New st id key w = Done (length (heap w), None) w'
    /\ fs w' = fs w /\ trace w' = trace w
    /\ heap w' = heap w ++ [new_paste st id key]
    /\ Paste_LastModified (length (heap w)) w' = Done zeroTime w'
    /\ (fs w !! filenameForID st id = None ->
        forall key', Get st id key' w'
                     = Done (None, Some (PasteNotFoundError id)) w').
Proof.
  rewrite New_run. eexists. split; [reflexivity|].
  split; [reflexivity|]. split; [reflexivity|]. split; [reflexivity|]. split.
  - unfold Paste_LastModified. rewrite bind_run.
    erewrite load_run by (apply list_lookup_middle; reflexivity).
    by destruct key.
  - intros Hnone key'. rewrite Get_run. cbn zeta.
    cbn [fs set_heap]. by rewrite Hnone.
Qed.



(** The metadata that a successful [Save] leaves in the file system. *)
Lemma Save_stored st l p w w' :
  heap w !! l = Some p ->
  Save st l w = Done None w' ->
  let fn := filenameForID st (ID p) in
  (exists f f', fs w !! fn = Some f /\ fs w' !! fn = Some f'
                /\ f_data f' = f_data f)
  /\ stored_metadata (fs w') fn "language" "text" = Language p
  /\ (Encrypted p = true ->
      stored_metadata (fs w') fn "hmac" "" = hmac_tag p
      /\ stored_metadata (fs w') fn "encryption_version" "" = ENCRYPTION_VERSION)
  /\ (Encrypted p = false ->
      forall name dflt, name ≠ "language" ->
        stored_metadata (fs w') fn name dflt = stored_metadata (fs w) fn name dflt).
Proof.
  intros Hl HS fn. rewrite (Save_run _ _ _ _ Hl) in HS. cbn zeta in HS. fold fn in HS.
  destruct (fs w !! fn) as [f|] eqn:Ef; [|discriminate].
  destruct (f_writable f); [|discriminate].
  injection HS as <-. cbn [fs].
  split; [exists f; eexists; split; [done|]; split;
          [apply lookup_insert_eq | reflexivity]|].
  unfold stored_metadata, metadata_of. rewrite !lookup_insert_eq, Ef.
  cbn [f_xattr]. destruct (Encrypted p); cbn [fold_left]; unfold put_xattr;
    cbn [fst snd String.append].
  - rewrite !(lookup_insert_ne _ "user.paste.encryption_version"
             "user.paste.language") by done.
    rewrite !(lookup_insert_ne _ "user.paste.hmac" "user.paste.language") by done.
    rewrite !(lookup_insert_ne _ "user.paste.encryption_version"
             "user.paste.hmac") by done.
    rewrite !lookup_insert_eq, !string_of_list_byte_of_string. done.
  - rewrite lookup_insert_eq, string_of_list_byte_of_string.
    split; [done|]. split; [done|]. intros _ name dflt Hne.
    rewrite lookup_insert_ne; [done|].
    intros Heq. by apply (attr_name_inj "language" name) in Heq.
Qed.

(** X3. The metadata after a successful [Save]. The language read back
    is the paste's language. For an encrypted paste the tag read back is
    the base32 text of the MAC of the identifier under the in-memory
    key (the empty key when it is nil), and the version read back is
    ["1"]. For an unencrypted paste every name other than [language]
    reads as before: a tag left by an earlier encrypted paste is not
    removed. *)
Theorem Save_then_metadata st l p w w' :
  heap w !! l = Some p ->
  Save st l w = Done None w' ->
  let fn := filenameForID st (ID p) in
  getMetadata fn "language" "text" w' = Done (Language p) w'
  /\ (if Encrypted p then
        getMetadata fn "hmac" "" w'
        = Done (base32.EncodeToString base32Encoder
                  (constructMAC (list_byte_of_string (PasteID_String (ID p)))
                     (bytes_of (encryptionKey p)))) w'
        /\ getMetadata fn "encryption_version" "" w' = Done ENCRYPTION_VERSION w'
      else
        forall name dflt, name ≠ "language" ->
          exists v, getMetadata fn name dflt w = Done v w
                    /\ getMetadata fn name dflt w' = Done v w').
Proof.
  intros Hl HS fn.
  destruct (Save_stored st l p w w' Hl HS) as (_ & Hlang & Henc & Hplain).
  fold fn in Hlang, Henc, Hplain. rewrite !getMetadata_run, Hlang.
  split; [reflexivity|]. destruct (Encrypted p).
  - destruct (Henc eq_refl) as [-> ->]. done.
  - intros name dflt Hne. rewrite !getMetadata_run, (Hplain eq_refl) by done.
    eauto.
Qed.


(** X5. [Get] only reads. It always returns, leaves the file system as
    it is, only appends to the heap (pastes already there are
    untouched), and a paste it returns sits at a fresh address. *)
Theorem Get_read_only st id key w :
  match Get st id key w with
  | Done (p, err) w' =>
      fs w' = fs w
      /\ (exists new, heap w' = heap w ++ new)
      /\ (forall l, p = Some l -> l = length (heap w))
  | Panicked _ => False
  end.
Proof.
  rewrite Get_run. cbn zeta.
  destruct (fs w !! filenameForID st id) as [f|].
  2:{ split; [done|]. split; [exists []; by rewrite app_nil_r | done]. }
  case_bool_decide; [destruct key as [k|]; [case_decode mac e; [|case_checkMAC]|]|];
    cbn [fs heap set_heap];
    (split; [done|]); (split; [eauto|]); intros l' [= <-]; done.
Qed.

(** X6. The paste that [Get] returns. It has the requested identifier,
    the store that fetched it, the modification time of the file (which
    [LastModified] returns), the stored language (["text"] when no
    language is stored); it is marked encrypted exactly when the stored
    tag is not empty; it carries the supplied key when it is encrypted
    and no key otherwise; and the error returned with it is
    [PasteEncryptedError] exactly when it is encrypted and no key was
    supplied. *)
Theorem Get_paste_fields st id key w l err w' :
  Get st id key w = Done (Some l, err) w' ->
  let fn := filenameForID st id in
  exists f p tag,
    fs w !! fn = Some f
    /\ heap w' !! l = Some p
    /\ Paste_LastModified l w' = Done (f_mtime f) w'
    /\ getMetadata fn "hmac" "" w = Done tag w
    /\ ID p = id /\ store p = st /\ mtime p = f_mtime f
    /\ getMetadata fn "language" "text" w = Done (Language p) w
    /\ Encrypted p = bool_decide (tag ≠ "")
    /\ encryptionKey p = (if Encrypted p then key else None)
    /\ err = (if Encrypted p
              then match key with
                   | None => Some (PasteEncryptedError id)
                   | Some _ => None
                   end
              else None).
Proof.
  intros HG fn. rewrite Get_run in HG. cbn zeta in HG. fold fn in HG.
  destruct (fs w !! fn) as [f|] eqn:Ef; [|discriminate].
  rewrite !getMetadata_run.
  exists f. 
  case_bool_decide as Htag.
  - destruct key as [k|].
    + revert HG. case_decode mac e; [discriminate|]. case_checkMAC; [|discriminate].
      intros [= <- <- <-]. eexists _, _. split; [done|]. cbn [heap].
      split; [apply list_lookup_middle; reflexivity|].
      split; [last_modified|]. split; [reflexivity|].
      paste_fields. rewrite bool_decide_eq_true_2 by done. done.
    + injection HG as <- <- <-. eexists _, _. split; [done|]. cbn [heap].
      split; [apply list_lookup_middle; reflexivity|].
      split; [last_modified|]. split; [reflexivity|].
      paste_fields. rewrite bool_decide_eq_true_2 by done. done.
  - injection HG as <- <- <-. eexists _, _. split; [done|]. cbn [heap].
    split; [apply list_lookup_middle; reflexivity|].
      split; [last_modified|]. split; [reflexivity|].
    paste_fields. rewrite Htag. done.
Qed.
End StoreFacts.

Section StreamFacts.
Context `{Ext : Externals}.

(** X7. [Close] of a read stream closes the underlying file and does
    nothing else: one close call, no change of the file system or the
    heap, no persist and no callback. Its result is nil exactly when
    the file was not closed before, and a further [Close] returns
    [ErrClosed]. *)
Theorem PasteReader_Close_only_closes pr w :
  exists err pr' w',
    PasteReader_Close pr w = Done (err, pr') w'
    /\ fs w' = fs w /\ heap w' = heap w
    /\ new_events w w' = [EvClose (of_name (rc_file (pr_ReadCloser pr)))]
    /\ (err = None <-> of_closed (rc_file (pr_ReadCloser pr)) = false)
    /\ pr_paste pr' = pr_paste pr
    /\ exists w'', PasteReader_Close pr' w' = Done (Some ErrClosed, pr') w''.
Proof.
  destruct pr as [[f|s f] l]; destruct f as [n o []];
    unfold PasteReader_Close, ReadCloser_Close, File_Close, log;
    rewrite !bind_run; cbn;
    do 3 eexists; (split; [reflexivity|]); cbn;
    (split; [reflexivity|]); (split; [reflexivity|]);
    (split; [by apply new_events_app|]);
    (split; [split; done|]); (split; [reflexivity|]);
    eexists; reflexivity.
Qed.

(** X8. After a successful [Destroy] the content and all the metadata
    of the paste are gone together: every [getMetadata] returns its
    default and [readStream] fails with the open error; no other file
    is touched. A second [Destroy] fails with the removal error, does
    not change the file system and calls no callback. *)
Theorem Destroy_removes_everything st l p w w1 :
  heap w !! l = Some p ->
  Destroy st l w = Done None w1 ->
  let fn := filenameForID st (ID p) in
  (forall name dflt, getMetadata fn name dflt w1 = Done dflt w1)
  /\ readStream st l w1 = Done (None, Some (PathError "open" fn ENOENT)) w1
  /\ (forall fn', fn' ≠ fn -> fs w1 !! fn' = fs w !! fn')
  /\ exists w2,
       Destroy st l w1 = Done (Some (PathError "remove" fn ENOENT)) w2
       /\ fs w2 = fs w1
       /\ new_events w1 w2 = [EvRemove fn].
Proof.
  intros Hl HD fn. rewrite (Destroy_run _ _ _ _ Hl) in HD. cbn zeta in HD.
  fold fn in HD. destruct (fs w !! fn) as [f|] eqn:Ef; [|discriminate].
  injection HD as <-.
  assert (Hl1 : heap {| fs := delete fn (fs w); heap := heap w;
                        trace := trace w ++ [EvRemove fn;
                          EvPasteDestroyCallback (PasteDestroyCallback st) l];
                        now := now w |} !! l = Some p) by exact Hl.
  split; [|split; [|split]].
  - intros name dflt. rewrite getMetadata_run. unfold stored_metadata.
    cbn [fs]. by rewrite lookup_delete_eq.
  - rewrite (readStream_run _ _ _ _ Hl1). cbn zeta. fold fn. cbn [fs].
    by rewrite lookup_delete_eq.
  - intros fn' Hne. cbn [fs]. by rewrite lookup_delete_ne.
  - rewrite (Destroy_run _ _ _ _ Hl1). cbn zeta. fold fn. cbn [fs].
    rewrite lookup_delete_eq. eexists. split; [reflexivity|].
    split; [reflexivity|]. by apply new_events_app.
Qed.

(** X9. Opening streams without a cipher. [readStream] on a missing file
    returns the open error, and [writeStream] on a file without write
    permission returns the create error and changes nothing, whatever
    the encrypted flag and the key (the cipher is built only after the
    file is open, so there is no panic). For an unencrypted paste the
    stream is the opened file itself, whatever key the paste holds. *)
Theorem streams_of_plain_and_missing st l p w :
  heap w !! l = Some p ->
  let fn := filenameForID st (ID p) in
  (fs w !! fn = None ->
   readStream st l w = Done (None, Some (PathError "open" fn ENOENT)) w)
  /\ ((exists f, fs w !! fn = Some f /\ f_writable f = false) ->
      exists w', writeStream st l w
                 = Done (None, Some (PathError "open" fn EACCES)) w'
                 /\ fs w' = fs w)
  /\ (Encrypted p = false -> is_Some (fs w !! fn) ->
      readStream st l w = Done (Some (plain_reader fn 0 l), None) w)
  /\ (Encrypted p = false -> creatable (fs w) fn ->
      exists w', writeStream st l w = Done (Some (plain_writer fn 0 l), None) w').
Proof.
  intros Hl fn.
  rewrite (readStream_run _ _ _ _ Hl), (writeStream_run _ _ _ _ Hl).
  cbn zeta. fold fn. unfold creatable.
  destruct (fs w !! fn) as [f|]; [destruct (f_writable f) eqn:Wf|].
  - split; [done|]. split; [intros (f' & [= <-] & ?); congruence|].
    split; intros ->; eauto.
  - split; [done|]. split; [eauto|]. split; [intros ->; eauto | done].
  - split; [done|]. split; [intros (f' & ? & _); done|].
    split; [intros _ Hs; by apply is_Some_None in Hs|]. intros ->; eauto.
Qed.

(** X10. [writeStream], when it returns a stream, has created or
    truncated the file: the content is empty, every metadata value
    reads as before (the attributes of an existing file survive), no
    other file and no paste is touched, and the only call is the
    create. *)
Theorem writeStream_truncates st l p w pw w' :
  heap w !! l = Some p ->
  writeStream st l w = Done (Some pw, None) w' ->
  let fn := filenameForID st (ID p) in
  (exists f', fs w' !! fn = Some f' /\ f_data f' = [])
  /\ (forall name dflt,
        exists v, getMetadata fn name dflt w = Done v w
                  /\ getMetadata fn name dflt w' = Done v w')
  /\ (forall fn', fn' ≠ fn -> fs w' !! fn' = fs w !! fn')
  /\ heap w' = heap w
  /\ new_events w w' = [EvCreate fn].
Proof.
  intros Hl HW fn. rewrite (writeStream_run _ _ _ _ Hl) in HW. cbn zeta in HW.
  fold fn in HW.
  assert (Hcases : exists x,
    w' = created fn x w
    /\ forall name dflt,
         stored_metadata (fs w) fn name dflt
         = match x !! ("user.paste." ++ name)%string with
           | Some v => string_of_list_byte v
           | None => dflt
           end).
  { destruct (fs w !! fn) as [f|] eqn:Ef.
    - destruct (f_writable f); [|discriminate]. exists (f_xattr f).
      split.
      + destruct (Encrypted p); [case_bool_decide|]; congruence.
      + intros name dflt. unfold stored_metadata. by rewrite Ef.
    - exists ∅. split.
      + destruct (Encrypted p); [case_bool_decide|]; congruence.
      + intros name dflt. unfold stored_metadata. by rewrite Ef, lookup_empty. }
  destruct Hcases as (x & -> & Hmeta). unfold created. cbn [fs heap].
  split; [|split; [|split; [|split]]].
  - eexists. split; [apply lookup_insert_eq | reflexivity].
  - intros name dflt. rewrite !getMetadata_run. eexists. split; [reflexivity|].
    f_equal. rewrite Hmeta. unfold stored_metadata. cbn [fs].
    by rewrite lookup_insert_eq.
  - intros fn' Hne. by rewrite lookup_insert_ne.
  - reflexivity.
  - by apply new_events_app.
Qed.

(** X11. A paste is visible before its write stream is closed. Right
    after [New] and [Writer] on an unused identifier, with or without a
    key, [Get] succeeds for every key and returns an unencrypted paste
    with no key and language ["text"]: the tag is written only by the
    [Save] at [Close]. *)
Theorem unclosed_writer_is_visible st id key w :
  fs w !! filenameForID st id = None ->
  match key with Some k => valid_key_length (length k) | None => True end ->
  exists pw w1,
    (New st id key ≫= fun r => Paste_Writer r.1) w = Done (Some pw, None) w1
    /\ forall key',
         exists l' w2 p',
           Get st id key' w1 = Done (Some l', None) w2
           /\ heap w2 !! l' = Some p'
           /\ Encrypted p' = false /\ encryptionKey p' = None
           /\ Language p' = "text".
Proof.
  intros Hnone Hkey. set (fn := filenameForID st id).
  rewrite bind_run, New_run. cbn [fst].
  set (w0 := set_heap _ w).
  assert (Hl : heap w0 !! length (heap w) = Some (new_paste st id key))
    by (apply list_lookup_middle; reflexivity).
  unfold Paste_Writer. rewrite bind_run, (load_run _ _ _ Hl).
  rewrite (writeStream_run _ _ _ _ Hl). cbn zeta.
  change (store (new_paste st id key)) with st.
  change (ID (new_paste st id key)) with id. fold fn.
  change (fs w0) with (fs w). fold fn in Hnone. rewrite Hnone.
  assert (HG : forall pw : PasteWriter, exists pw0 w1,
    Done (Some pw, @None error) (created fn ∅ w0) = Done (Some pw0, None) w1
    /\ forall key', exists l' w2 p',
         Get st id key' w1 = Done (Some l', None) w2
         /\ heap w2 !! l' = Some p'
         /\ Encrypted p' = false /\ encryptionKey p' = None
         /\ Language p' = "text").
  { intros pw. do 2 eexists. split; [reflexivity|]. intros key'.
    rewrite Get_run. cbn zeta. fold fn. unfold created at 1. cbn [fs].
    rewrite lookup_insert_eq.
    assert (Hno : forall name dflt,
      stored_metadata (fs (created fn ∅ w0)) fn name dflt = dflt).
    { intros name dflt. unfold stored_metadata, created. cbn [fs].
      by rewrite lookup_insert_eq. }
    rewrite !Hno. rewrite bool_decide_eq_false_2 by (intros H; by apply H).
    do 3 eexists. split; [reflexivity|]. cbn [heap].
    split; [apply list_lookup_middle; reflexivity|]. done. }
  destruct key as [k|]; cbn [new_paste Encrypted encryptionKey bytes_of].
  - rewrite (bool_decide_eq_true_2 _ Hkey). apply HG.
  - apply HG.
Qed.
End StreamFacts.

Section Composition.
Context `{Ext : Externals}.

(** [writeStream] returns a stream or an error. *)
Lemma Paste_Writer_result p w w1 : Paste_Writer p w ≠ Done (None, None) w1.
Proof.
  unfold Paste_Writer. rewrite bind_run. unfold load.
  destruct (heap w !! p) as [paste|] eqn:Hl; [|discriminate].
  rewrite (writeStream_run _ _ _ _ Hl). cbn zeta.
  destruct (fs w !! _) as [f|]; [destruct (f_writable f)|];
    try discriminate;
    (destruct (Encrypted paste); [case_bool_decide|]; discriminate).
Qed.

(** [round_trip] is [store_paste] followed by [fetch_paste]. *)
Lemma round_trip_split st id key key' chunks fuel n w :
  round_trip st id key key' chunks fuel n w
  = match store_paste st id key chunks w with
    | Done None w1 => fetch_paste st id key' fuel n w1
    | Done (Some e) w1 => Done (None, Some e) w1
    | Panicked w1 => Panicked w1
    end.
Proof.
  unfold round_trip, store_paste, fetch_paste. rewrite !bind_run.
  destruct (New st id key w) as [[p e0] w0|w0]; [|reflexivity].
  rewrite !bind_run.
  destruct (Paste_Writer p w0) as [[[pw|] [e1|]] w1|w1] eqn:EW; try reflexivity.
  2:{ by apply Paste_Writer_result in EW. }
  rewrite !bind_run.
  destruct (WriteAll pw chunks w1) as [[[e2|] pw'] w2|w2]; try reflexivity.
  rewrite !bind_run.
  destruct (PasteWriter_Close pw' w2) as [[[e3|] pw''] w3|w3]; reflexivity.
Qed.

Lemma PasteWriter_Write_plain name l pos c w file :
  fs w !! name = Some file ->
  PasteWriter_Write (plain_writer name pos l) c w
  = Done (length c, None, plain_writer name (pos + length c) l)
      {| fs := <[name := {| f_data := write_at (f_data file) pos c;
                            f_xattr := f_xattr file;
                            f_mtime := now w;
                            f_writable := f_writable file |}]> (fs w);
         heap := heap w;
         trace := trace w ++ [EvWrite name pos c];
         now := now w |}.
Proof.
  intros Hf.
  unfold PasteWriter_Write, plain_writer, file_at, WriteCloser_Write,
    File_Write, log, step.
  cbn [pw_WriteCloser pw_paste of_closed of_name of_offset].
  rewrite !bind_run. cbn [fs set_trace]. rewrite Hf. reflexivity.
Qed.

Lemma PasteReader_Read_plain name l pos n w file :
  fs w !! name = Some file ->
  PasteReader_Read (plain_reader name pos l) n w
  = let got := firstn n (skipn pos (f_data file)) in
    match got, n with
    | [], S _ => Done ([], Some EOF, plain_reader name pos l) w
    | _, _ => Done (got, None, plain_reader name (pos + length got) l) w
    end.
Proof.
  intros Hf.
  unfold PasteReader_Read, plain_reader, file_at, ReadCloser_Read, File_Read.
  cbn [pr_ReadCloser pr_paste of_closed of_name of_offset].
  rewrite !bind_run. rewrite Hf. cbn zeta.
  destruct (firstn n (skipn pos (f_data file))) as [|g got]; [destruct n|];
    cbn; rewrite ?Nat.add_0_r; reflexivity.
Qed.

Lemma WriteAll_plain name l chunks : forall w file,
  fs w !! name = Some file ->
  exists w' file',
    WriteAll (plain_writer name (length (f_data file)) l) chunks w
    = Done (None, plain_writer name (length (f_data file')) l) w'
    /\ heap w' = heap w /\ now w' = now w
    /\ fs w' !! name = Some file'
    /\ f_data file' = f_data file ++ concat chunks
    /\ f_xattr file' = f_xattr file
    /\ f_writable file' = f_writable file.
Proof.
  induction chunks as [|c chunks IH]; intros w file Hf.
  - exists w, file. cbn [concat]. rewrite app_nil_r. repeat split; done.
  - cbn [WriteAll]. rewrite bind_run, (PasteWriter_Write_plain _ _ _ _ _ file Hf).
    rewrite write_at_end.
    set (file1 := {| f_data := f_data file ++ c;
                     f_xattr := f_xattr file; f_mtime := now w;
                     f_writable := f_writable file |}).
    set (w1 := {| fs := <[name := file1]> (fs w); heap := heap w;
                  trace := _; now := now w |}).
    assert (Hf1 : fs w1 !! name = Some file1) by apply lookup_insert_eq.
    assert (Hlen : length (f_data file1) = length (f_data file) + length c).
    { subst file1. cbn [f_data]. by rewrite length_app. }
    destruct (IH w1 file1 Hf1) as (w' & file' & Hrun & Hh & Hn & Hf' & Hd & Hx & Hw).
    exists w', file'. rewrite Hlen in Hrun. split; [exact Hrun|].
    repeat split; try done.
    rewrite Hd. subst file1. cbn [f_data concat]. by rewrite <- app_assoc.
Qed.

Lemma ReadAll_plain name l n w file : 0 < n ->
  fs w !! name = Some file ->
  forall fuel pos, pos <= length (f_data file) ->
    length (f_data file) - pos < fuel ->
    ReadAll fuel n (plain_reader name pos l) w
    = Done (Some (skipn pos (f_data file), None)) w.
Proof.
  intros Hn Hf. induction fuel as [|fuel IH]; intros pos Hpos Hfuel; [lia|].
  cbn [ReadAll]. rewrite bind_run, (PasteReader_Read_plain _ _ _ _ _ file Hf).
  cbn zeta.
  destruct (firstn n (skipn pos (f_data file))) as [|g got] eqn:Eg.
  - destruct n as [|n]; [lia|].
    destruct (skipn pos (f_data file)) as [|d rest] eqn:Es; [|discriminate].
    reflexivity.
  - assert (Hsplit : skipn pos (f_data file)
                     = (g :: got) ++ skipn (pos + length (g :: got)) (f_data file)).
    { rewrite <- Eg, <- drop_drop. apply take_drop_length. }
    assert (Hle : pos + length (g :: got) <= length (f_data file)).
    { apply (f_equal (@length byte)) in Hsplit.
      rewrite length_app, !length_skipn in Hsplit. cbn [length] in *. lia. }
    cbv beta iota.
    rewrite bind_run, IH by (cbn [length] in *; lia).
    rewrite Hsplit at 1. reflexivity.
Qed.

(** What [store_paste] leaves behind for an unencrypted paste. *)
Lemma store_paste_plain st id chunks w :
  creatable (fs w) (filenameForID st id) ->
  exists w1 f,
    store_paste st id None chunks w = Done None w1
    /\ fs w1 !! filenameForID st id = Some f
    /\ f_data f = concat chunks
    /\ stored_metadata (fs w1) (filenameForID st id) "language" "text" = ""
    /\ stored_metadata (fs w1) (filenameForID st id) "hmac" ""
       = stored_metadata (fs w) (filenameForID st id) "hmac" "".
Proof.
  intros Hcr. set (fn := filenameForID st id) in *.
  set (p0 := new_paste st id None). set (l := length (heap w)).
  unfold store_paste. rewrite bind_run, New_run. fold p0 l.
  set (w0 := set_heap (heap w ++ [p0]) w).
  assert (Hl0 : heap w0 !! l = Some p0) by (apply list_lookup_middle; reflexivity).
  assert (Hopen : exists x,
    Paste_Writer l w0 = Done (Some (plain_writer fn 0 l), None) (created fn x w0)
    /\ forall name dflt,
         stored_metadata (fs w) fn name dflt
         = match x !! ("user.paste." ++ name)%string with
           | Some v => string_of_list_byte v
           | None => dflt
           end).
  { unfold Paste_Writer. rewrite bind_run, (load_run _ _ _ Hl0).
    rewrite (writeStream_run _ _ _ _ Hl0). cbn zeta.
    change (store p0) with st. change (ID p0) with id.
    change (Encrypted p0) with false. fold fn.
    unfold creatable in Hcr. change (fs w0) with (fs w).
    unfold stored_metadata.
    destruct (fs w !! fn) as [f|].
    - rewrite Hcr. exists (f_xattr f). split; [reflexivity|done].
    - exists ∅. split; [reflexivity|]. intros. by rewrite lookup_empty. }
  destruct Hopen as (x & Hopen & Hmeta). rewrite bind_run, Hopen.
  set (w2 := created fn x w0).
  set (file2 := {| f_data := []; f_xattr := x; f_mtime := now w0;
                   f_writable := true |}).
  assert (Hf2 : fs w2 !! fn = Some file2) by apply lookup_insert_eq.
  destruct (WriteAll_plain fn l chunks w2 file2 Hf2)
    as (w3 & file3 & Hwrite & Hh3 & _ & Hf3 & Hd3 & Hx3 & Hw3).
  change (length (f_data file2)) with 0 in Hwrite.
  change (f_data file2) with (@nil byte) in Hd3. cbn [app] in Hd3.
  change (f_writable file2) with true in Hw3.
  change (f_xattr file2) with x in Hx3.
  rewrite bind_run, Hwrite.
  assert (Hl3 : heap w3 !! l = Some p0) by (rewrite Hh3; exact Hl0).
  rewrite bind_run, PasteWriter_Close_run.
  cbn [pw_paste plain_writer pw_WriteCloser].
  rewrite (Paste_Save_run _ _ _ Hl3), (Save_run _ _ _ _ Hl3). cbn zeta.
  change (store p0) with st. change (ID p0) with id. fold fn.
  rewrite Hf3, Hw3.
  rewrite WriteCloser_Close_run. cbn [wc_file of_closed file_at]. cbn zeta.
  do 2 eexists. split; [reflexivity|]. cbn [fs set_trace].
  split; [apply lookup_insert_eq|]. cbn [f_data]. split; [exact Hd3|].
  unfold stored_metadata at 1 2. rewrite !lookup_insert_eq. cbn [f_xattr].
  unfold metadata_of. change (Encrypted p0) with false.
  cbn [fold_left]. unfold put_xattr. cbn [fst snd String.append].
  rewrite lookup_insert_eq, lookup_insert_ne by done.
  rewrite Hx3, (Hmeta "hmac" ""). done.
Qed.

(** Fetching and reading a paste that carries no tag. *)
Lemma fetch_paste_plain st id key' fuel n w f :
  fs w !! filenameForID st id = Some f ->
  stored_metadata (fs w) (filenameForID st id) "hmac" "" = "" ->
  0 < n -> length (f_data f) < fuel ->
  exists w', fetch_paste st id key' fuel n w = Done (Some (f_data f), None) w'
             /\ fs w' = fs w.
Proof.
  intros Hf Htag Hn Hfuel. set (fn := filenameForID st id) in *.
  unfold fetch_paste. rewrite bind_run, Get_run. cbn zeta. fold fn.
  rewrite Hf, Htag. rewrite bool_decide_eq_false_2 by (intros H; by apply H).
  set (p6 := set_Language _ _).
  set (w6 := {| fs := fs w; heap := heap w ++ [p6]; trace := _; now := _ |}).
  assert (Hl6 : heap w6 !! length (heap w) = Some p6)
    by (apply list_lookup_middle; reflexivity).
  rewrite bind_run. unfold Paste_Reader.
  rewrite bind_run, (load_run _ _ _ Hl6), (readStream_run _ _ _ _ Hl6). cbn zeta.
  change (store p6) with st. change (ID p6) with id.
  change (Encrypted p6) with false. fold fn. change (fs w6) with (fs w).
  rewrite Hf. fold (plain_reader fn 0 (length (heap w))).
  assert (Hf6 : fs w6 !! fn = Some f) by exact Hf.
  rewrite bind_run, (ReadAll_plain fn _ n w6 f Hn Hf6 fuel 0) by lia.
  rewrite drop_0. eexists. split; reflexivity.
Qed.

(** X12. Round trip of an unencrypted paste. On a file that can be
    created and carries no tag: create the paste without key, write the
    payload in any chunks, close, fetch with any key or none, read to
    the end; the result is the payload, and the file holds exactly the
    payload bytes. *)
Theorem round_trip_plain st id key' chunks fuel bufsize w :
  creatable (fs w) (filenameForID st id) ->
  stored_metadata (fs w) (filenameForID st id) "hmac" "" = "" ->
  0 < bufsize ->
  length (concat chunks) < fuel ->
  exists w' f,
    round_trip st id None key' chunks fuel bufsize w
    = Done (Some (concat chunks), None) w'
    /\ fs w' !! filenameForID st id = Some f
    /\ f_data f = concat chunks.
Proof.
  intros Hcr Htag Hbuf Hfuel.
  destruct (store_paste_plain st id chunks w Hcr)
    as (w1 & f & Hstore & Hf & Hd & _ & Htag1).
  rewrite round_trip_split, Hstore.
  rewrite Htag in Htag1. rewrite <- Hd in Hfuel.
  destruct (fetch_paste_plain st id key' fuel bufsize w1 f Hf Htag1 Hbuf Hfuel)
    as (w' & Hfetch & Hfs).
  exists w', f. rewrite Hfetch, Hd. split; [reflexivity|].
  rewrite Hfs. done.
Qed.

(** X13. Overwriting an encrypted paste without a key. When the file
    carries a tag, creating an unencrypted paste with the same
    identifier, writing and closing stores the payload as it is, but
    the old tag stays: the fetch without key fails with
    [PasteEncryptedError]. *)
Theorem overwrite_keeps_tag st id chunks fuel bufsize w f :
  fs w !! filenameForID st id = Some f ->
  f_writable f = true ->
  stored_metadata (fs w) (filenameForID st id) "hmac" "" ≠ "" ->
  exists w' f',
    round_trip st id None None chunks fuel bufsize w
    = Done (None, Some (PasteEncryptedError id)) w'
    /\ fs w' !! filenameForID st id = Some f'
    /\ f_data f' = concat chunks.
Proof.
  intros Hf Hw Htag.
  assert (Hcr : creatable (fs w) (filenameForID st id))
    by (unfold creatable; by rewrite Hf).
  destruct (store_paste_plain st id chunks w Hcr)
    as (w1 & f1 & Hstore & Hf1 & Hd & _ & Htag1).
  rewrite round_trip_split, Hstore.
  unfold fetch_paste. rewrite bind_run, Get_run. cbn zeta.
  rewrite Hf1, Htag1. rewrite (bool_decide_eq_true_2 _ Htag).
  do 2 eexists. split; [reflexivity|]. cbn [fs]. eauto.
Qed.

(** X14. [Save] followed by [Get], for an encrypted paste whose MAC is
    not empty and a decoder that inverts the encoder. Without a key
    [Get] returns the paste (encrypted, no key, the saved language)
    together with [PasteEncryptedError]. With a key [k], [Get] returns
    a paste carrying [k] and the saved language when [checkMAC] accepts
    the saved MAC for [k], and fails with [PasteInvalidKeyError] when
    it does not. *)
Theorem Save_then_Get st l p w w1 :
  heap w !! l = Some p ->
  Save st l w = Done None w1 ->
  Encrypted p = true ->
  constructMAC (list_byte_of_string (PasteID_String (ID p)))
    (bytes_of (encryptionKey p)) ≠ [] ->
  (forall b, base32_DecodeString base32Encoder
               (base32.EncodeToString base32Encoder b) = (b, None)) ->
  (exists l' w2 p',
     Get st (ID p) None w1 = Done (Some l', Some (PasteEncryptedError (ID p))) w2
     /\ heap w2 !! l' = Some p'
     /\ Language p' = Language p /\ Encrypted p' = true
     /\ encryptionKey p' = None)
  /\ forall k,
       if checkMAC (list_byte_of_string (PasteID_String (ID p)))
            (constructMAC (list_byte_of_string (PasteID_String (ID p)))
               (bytes_of (encryptionKey p))) k
       then exists l' w2 p',
              Get st (ID p) (Some k) w1 = Done (Some l', None) w2
              /\ heap w2 !! l' = Some p'
              /\ Language p' = Language p /\ Encrypted p' = true
              /\ encryptionKey p' = Some k
       else exists w2,
              Get st (ID p) (Some k) w1
              = Done (None, Some (PasteInvalidKeyError (ID p))) w2.
Proof.
  intros Hl HS Hp Hmac Hdec.
  destruct (Save_stored st l p w w1 Hl HS)
    as ((f0 & f & _ & Hf & _) & Hlang & Henc & _).
  destruct (Henc Hp) as [Htag _]. unfold hmac_tag in Htag.
  assert (Hne : stored_metadata (fs w1) (filenameForID st (ID p)) "hmac" "" ≠ "")
    by (rewrite Htag; by apply Encode_nonempty).
  split.
  - rewrite Get_run. cbn zeta. rewrite Hf, (bool_decide_eq_true_2 _ Hne).
    do 3 eexists. split; [reflexivity|]. cbn [heap].
    split; [apply list_lookup_middle; reflexivity|]. paste_fields.
    by rewrite Hlang.
  - intros k. rewrite Get_run. cbn zeta.
    rewrite Hf, (bool_decide_eq_true_2 _ Hne), Htag, Hdec.
    case_checkMAC; [|eauto].
    do 3 eexists. split; [reflexivity|]. cbn [heap].
    split; [apply list_lookup_middle; reflexivity|]. paste_fields.
    by rewrite Hlang.
Qed.
End Composition.

Lemma byte_xor_cancel_key (a b k : byte) :
  byte_xor (byte_xor a k) (byte_xor b k) = byte_xor a b.
Proof.
  apply to_N_inj. rewrite !to_N_byte_xor.
  apply N.bits_inj. intros n. rewrite !N.lxor_spec.
  destruct (N.testbit (Byte.to_N a) n), (N.testbit (Byte.to_N b) n),
    (N.testbit (Byte.to_N k) n); reflexivity.
Qed.

Section Keystream.
Context `{Ext : Externals}.

Lemma xor_from_cancel b iv pos (P1 P2 : list byte) :
  zip_with byte_xor (xor_from b iv pos P1) (xor_from b iv pos P2)
  = zip_with byte_xor P1 P2.
Proof.
  revert pos P2. induction P1 as [|a P1 IH]; intros pos [|c P2];
    cbn [xor_from zip_with]; try reflexivity.
  by rewrite byte_xor_cancel_key, IH.
Qed.

(** What [store_paste] leaves behind for a paste with a key. *)
Lemma store_paste_encrypted st id K chunks w :
  valid_key_length (length K) ->
  creatable (fs w) (filenameForID st id) ->
  exists w1 f,
    store_paste st id (Some K) chunks w = Done None w1
    /\ fs w1 !! filenameForID st id = Some f
    /\ f_data f = xor_from {| block_key := K |} zero_iv 0 (concat chunks).
Proof.
  intros HK Hcr. set (fn := filenameForID st id) in *.
  set (p0 := new_paste st id (Some K)). set (l := length (heap w)).
  unfold store_paste. rewrite bind_run, New_run. fold p0 l.
  set (w0 := set_heap (heap w ++ [p0]) w).
  assert (Hl0 : heap w0 !! l = Some p0) by (apply list_lookup_middle; reflexivity).
  assert (Hopen : exists x,
    Paste_Writer l w0 = Done (Some (cipher_writer K fn 0 l), None) (created fn x w0)).
  { unfold Paste_Writer. rewrite bind_run, (load_run _ _ _ Hl0).
    rewrite (writeStream_run _ _ _ _ Hl0). cbn zeta.
    change (store p0) with st. change (ID p0) with id.
    change (Encrypted p0) with true.
    change (bytes_of (encryptionKey p0)) with K.
    rewrite (bool_decide_eq_true_2 _ HK). fold fn.
    unfold creatable in Hcr. change (fs w0) with (fs w).
    destruct (fs w !! fn) as [f|].
    - rewrite Hcr. by exists (f_xattr f).
    - by exists ∅. }
  destruct Hopen as [x Hopen]. rewrite bind_run, Hopen.
  set (w2 := created fn x w0).
  set (file2 := {| f_data := []; f_xattr := x; f_mtime := now w0;
                   f_writable := true |}).
  assert (Hf2 : fs w2 !! fn = Some file2) by apply lookup_insert_eq.
  destruct (WriteAll_cipher K fn l chunks w2 file2 Hf2)
    as (w3 & file3 & Hwrite & Hh3 & _ & Hf3 & Hd3 & Hx3 & Hw3).
  change (length (f_data file2)) with 0 in Hwrite, Hd3.
  change (f_data file2) with (@nil byte) in Hd3. cbn [app] in Hd3.
  change (f_writable file2) with true in Hw3.
  rewrite bind_run, Hwrite.
  assert (Hl3 : heap w3 !! l = Some p0) by (rewrite Hh3; exact Hl0).
  rewrite bind_run, PasteWriter_Close_run.
  cbn [pw_paste cipher_writer pw_WriteCloser].
  rewrite (Paste_Save_run _ _ _ Hl3), (Save_run _ _ _ _ Hl3). cbn zeta.
  change (store p0) with st. change (ID p0) with id. fold fn.
  rewrite Hf3, Hw3.
  rewrite WriteCloser_Close_run. cbn [wc_file of_closed file_at]. cbn zeta.
  do 2 eexists. split; [reflexivity|]. cbn [fs set_trace].
  split; [apply lookup_insert_eq|]. exact Hd3.
Qed.

(** X15. Two pastes stored under the same key share the key stream (the
    IV is fixed): each stored content has the length of its payload,
    and the bytewise xor of the two stored contents is the bytewise xor
    of the two payloads. *)
Theorem same_key_same_keystream st id1 id2 K chunks1 chunks2 w1 w2 :
  valid_key_length (length K) ->
  creatable (fs w1) (filenameForID st id1) ->
  creatable (fs w2) (filenameForID st id2) ->
  exists w1' w2' f1 f2,
    store_paste st id1 (Some K) chunks1 w1 = Done None w1'
    /\ store_paste st id2 (Some K) chunks2 w2 = Done None w2'
    /\ fs w1' !! filenameForID st id1 = Some f1
    /\ fs w2' !! filenameForID st id2 = Some f2
    /\ length (f_data f1) = length (concat chunks1)
    /\ length (f_data f2) = length (concat chunks2)
    /\ zip_with byte_xor (f_data f1) (f_data f2)
       = zip_with byte_xor (concat chunks1) (concat chunks2).
Proof.
  intros HK H1 H2.
  destruct (store_paste_encrypted st id1 K chunks1 w1 HK H1) as (w1' & f1 & E1 & F1 & D1).
  destruct (store_paste_encrypted st id2 K chunks2 w2 HK H2) as (w2' & f2 & E2 & F2 & D2).
  exists w1', w2', f1, f2. rewrite D1, D2, !xor_from_length, xor_from_cancel.
  repeat split; assumption.
Qed.
End Keystream.

(** The identifier made of three bytes. *)
Lemma generatePasteID_success (r : RandRead) (id : PasteID) :
  rand_contract r ->
  generatePasteID r = (id, None) ->
  exists b0 b1 b2,
    (r (repeat "000"%byte 3)).1.2 = [b0; b1; b2]
    /\ base32.Encode base32Encoder [b0; b1; b2]
       = list_byte_of_string id ++ repeat base32.padChar 3.
Proof.
  intros Hc. unfold generatePasteID.
  specialize (Hc (repeat "000"%byte 3)).
  destruct (r (repeat "000"%byte 3)) as [[n uuid] rerr].
  destruct Hc as [Hlen Hn]. cbn [repeat length] in Hlen, Hn.
  destruct rerr as [e|]; [rewrite orb_true_r; discriminate|].
  rewrite Hlen, (proj2 Hn eq_refl).
  rewrite bool_decide_eq_false_2 by (intros H; by apply H).
  rewrite bool_decide_eq_false_2 by (intros H; by apply H).
  cbn [orb]. intros [= <-].
  destruct uuid as [|b0 [|b1 [|b2 [|]]]]; try discriminate.
  exists b0, b1, b2. split; [reflexivity|].
  unfold PasteIDFromString, base32.EncodeToString.
  cbn [base32.Encode base32.unpack firstn map app repeat].
  rewrite substring_5, list_byte_of_string_of_list_byte. reflexivity.
Qed.

(** X16. Identifiers do not collide by encoding: when two runs of
    [generatePasteID] succeed with the same identifier, the random
    sources delivered the same three bytes. *)
Theorem generatePasteID_injective (r1 r2 : RandRead) (id : PasteID) :
  rand_contract r1 -> rand_contract r2 ->
  generatePasteID r1 = (id, None) ->
  generatePasteID r2 = (id, None) ->
  (r1 (repeat "000"%byte 3)).1.2 = (r2 (repeat "000"%byte 3)).1.2.
Proof.
  intros H1 H2 G1 G2.
  destruct (generatePasteID_success r1 id H1 G1) as (a0 & a1 & a2 & -> & Ea).
  destruct (generatePasteID_success r2 id H2 G2) as (b0 & b1 & b2 & -> & Eb).
  pose proof (Decode_Encode [a0; a1; a2] 0) as Da.
  pose proof (Decode_Encode [b0; b1; b2] 0) as Db.
  rewrite Ea in Da. rewrite Eb in Db. congruence.
Qed.

Section Aliasing.
Context `{Ext : Externals}.

(** X17. [Save] on a paste fetched without its key. The paste that
    [Get] returns with [PasteEncryptedError] is encrypted and holds no
    key; [Save] on it (file writable) succeeds and replaces the stored
    tag by the base32 text of the MAC of the identifier under the empty
    key. *)
Theorem Save_after_keyless_Get st id w l w1 :
  Get st id None w = Done (Some l, Some (PasteEncryptedError id)) w1 ->
  (exists f, fs w !! filenameForID st id = Some f /\ f_writable f = true) ->
  exists w2,
    Paste_Save l w1 = Done None w2
    /\ getMetadata (filenameForID st id) "hmac" "" w2
       = Done (base32.EncodeToString base32Encoder
                 (constructMAC (list_byte_of_string (PasteID_String id)) [])) w2.
Proof.
  intros HG (f & Hf & Hw). rewrite Get_run in HG. cbn zeta in HG.
  rewrite Hf in HG. case_bool_decide as Htag; [|discriminate].
  injection HG as <- <-.
  set (p := set_Language _ _).
  set (w1 := {| fs := fs w; heap := heap w ++ [p]; trace := _; now := _ |}).
  assert (Hl : heap w1 !! length (heap w) = Some p)
    by (apply list_lookup_middle; reflexivity).
  assert (HS : exists w2, Save st (length (heap w)) w1 = Done None w2).
  { rewrite (Save_run _ _ _ _ Hl). cbn zeta. change (ID p) with id.
    change (fs w1) with (fs w). rewrite Hf, Hw. eauto. }
  destruct HS as [w2 HS]. exists w2.
  rewrite (Paste_Save_run _ _ _ Hl). change (store p) with st.
  split; [exact HS|].
  destruct (Save_stored st _ p w1 w2 Hl HS) as (_ & _ & Henc & _).
  destruct (Henc eq_refl) as [Ht _]. change (ID p) with id in Ht.
  rewrite getMetadata_run, Ht. reflexivity.
Qed.

End Aliasing.

(** ** The further properties on concrete inputs *)

Section ConcreteCoverage.
Import Ref.

Lemma writable_world_encrypted :
  exists f, fs world_encrypted !! filenameForID store0 "abcde" = Some f
            /\ f_writable f = true.
Proof. rewrite file_world_encrypted. eauto. Qed.

Lemma tag_world_encrypted :
  stored_metadata (fs world_encrypted) (filenameForID store0 "abcde") "hmac" "" ≠ "".
Proof. vm_compute. discriminate. Qed.

Lemma Save_world_encrypted :
  Save store0 0 world_encrypted
  = Done None (world_of (Save store0 0 world_encrypted)).
Proof. vm_compute. reflexivity. Qed.

Lemma Save_then_metadata_witness :
  heap world_encrypted !! 0 = Some paste_encrypted
  /\ Save store0 0 world_encrypted
     = Done None (world_of (Save store0 0 world_encrypted))
  /\ getMetadata file0 "encryption_version" ""
       (world_of (Save store0 0 world_encrypted))
     = Done "1" (world_of (Save store0 0 world_encrypted)).
Proof.
  split; [exact heap_world_encrypted|]. split; [exact Save_world_encrypted|].
  exact (proj2 (proj2 (Save_then_metadata store0 0 paste_encrypted world_encrypted
                         _ heap_world_encrypted Save_world_encrypted))).
Defined.


Lemma Get_world_encrypted :
  Get store0 "abcde" (Some key32) world_encrypted
  = Done (Some 2, None)
      (world_of (Get store0 "abcde" (Some key32) world_encrypted)).
Proof. vm_compute. reflexivity. Qed.

Lemma Get_paste_fields_witness :
  Get store0 "abcde" (Some key32) world_encrypted
  = Done (Some 2, None)
      (world_of (Get store0 "abcde" (Some key32) world_encrypted))
  /\ exists f p tag,
       fs world_encrypted !! filenameForID store0 "abcde" = Some f
       /\ heap (world_of (Get store0 "abcde" (Some key32) world_encrypted)) !! 2
          = Some p
       /\ Paste_LastModified 2
            (world_of (Get store0 "abcde" (Some key32) world_encrypted))
          = Done (f_mtime f)
              (world_of (Get store0 "abcde" (Some key32) world_encrypted))
       /\ getMetadata (filenameForID store0 "abcde") "hmac" "" world_encrypted
          = Done tag world_encrypted
       /\ ID p = "abcde" /\ store p = store0 /\ mtime p = f_mtime f
       /\ getMetadata (filenameForID store0 "abcde") "language" "text"
            world_encrypted
          = Done (Language p) world_encrypted
       /\ Encrypted p = bool_decide (tag ≠ "")
       /\ encryptionKey p = (if Encrypted p then Some key32 else None)
       /\ @None error = (if Encrypted p then None else None).
Proof.
  split; [exact Get_world_encrypted|].
  exact (Get_paste_fields store0 "abcde" (Some key32) world_encrypted 2 None _
           Get_world_encrypted).
Defined.

Lemma Destroy_world_encrypted :
  Destroy store0 0 world_encrypted
  = Done None (world_of (Destroy store0 0 world_encrypted)).
Proof. vm_compute. reflexivity. Qed.

Lemma Destroy_removes_everything_witness :
  heap world_encrypted !! 0 = Some paste_encrypted
  /\ Destroy store0 0 world_encrypted
     = Done None (world_of (Destroy store0 0 world_encrypted))
  /\ forall name dflt,
       getMetadata (filenameForID store0 (ID paste_encrypted)) name dflt
         (world_of (Destroy store0 0 world_encrypted))
       = Done dflt (world_of (Destroy store0 0 world_encrypted)).
Proof.
  split; [exact heap_world_encrypted|]. split; [exact Destroy_world_encrypted|].
  exact (proj1 (Destroy_removes_everything store0 0 paste_encrypted
                  world_encrypted _ heap_world_encrypted Destroy_world_encrypted)).
Defined.

Lemma streams_of_plain_and_missing_witness :
  heap world_open !! 0 = Some (fresh_paste store0 "abcde" zeroTime)
  /\ Encrypted (fresh_paste store0 "abcde" zeroTime) = false
  /\ is_Some (fs world_open !! filenameForID store0 "abcde")
  /\ readStream store0 0 world_open
     = Done (Some (plain_reader (filenameForID store0 "abcde") 0 0), None)
         world_open.
Proof.
  assert (Hs : is_Some (fs world_open !! filenameForID store0 "abcde"))
    by (eexists; vm_compute; reflexivity).
  split; [reflexivity|]. split; [reflexivity|]. split; [exact Hs|].
  exact (proj1 (proj2 (proj2 (streams_of_plain_and_missing store0 0
           (fresh_paste store0 "abcde" zeroTime) world_open eq_refl)))
           eq_refl Hs).
Defined.

Lemma writeStream_world_encrypted :
  writeStream store0 0 world_encrypted
  = Done (Some (cipher_writer key32 file0 0 0), None)
      (world_of (writeStream store0 0 world_encrypted)).
Proof. vm_compute. reflexivity. Qed.

Lemma writeStream_truncates_witness :
  heap world_encrypted !! 0 = Some paste_encrypted
  /\ writeStream store0 0 world_encrypted
     = Done (Some (cipher_writer key32 file0 0 0), None)
         (world_of (writeStream store0 0 world_encrypted))
  /\ exists f',
       fs (world_of (writeStream store0 0 world_encrypted))
         !! filenameForID store0 (ID paste_encrypted) = Some f'
       /\ f_data f' = [].
Proof.
  split; [exact heap_world_encrypted|].
  split; [exact writeStream_world_encrypted|].
  exact (proj1 (writeStream_truncates store0 0 paste_encrypted world_encrypted
                  _ _ heap_world_encrypted writeStream_world_encrypted)).
Defined.

Lemma unclosed_writer_is_visible_witness :
  fs world0 !! filenameForID store0 "abcde" = None
  /\ valid_key_length (length key32)
  /\ exists pw w1,
       (New store0 "abcde" (Some key32) ≫= fun r => Paste_Writer r.1) world0
       = Done (Some pw, None) w1
       /\ forall key',
            exists l' w2 p',
              Get store0 "abcde" key' w1 = Done (Some l', None) w2
              /\ heap w2 !! l' = Some p'
              /\ Encrypted p' = false /\ encryptionKey p' = None
              /\ Language p' = "text".
Proof.
  assert (H1 : fs world0 !! filenameForID store0 "abcde" = None)
    by (vm_compute; reflexivity).
  assert (H2 : valid_key_length (length key32)) by (right; right; reflexivity).
  split; [exact H1|]. split; [exact H2|].
  exact (unclosed_writer_is_visible store0 "abcde" (Some key32) world0 H1 H2).
Defined.

Lemma round_trip_plain_witness :
  creatable (fs world0) (filenameForID store0 "abcde")
  /\ stored_metadata (fs world0) (filenameForID store0 "abcde") "hmac" "" = ""
  /\ 0 < 4 /\ length (concat [secret]) < 10
  /\ exists w' f,
       round_trip store0 "abcde" None (Some key32) [secret] 10 4 world0
       = Done (Some (concat [secret]), None) w'
       /\ fs w' !! filenameForID store0 "abcde" = Some f
       /\ f_data f = concat [secret].
Proof.
  assert (H1 : creatable (fs world0) (filenameForID store0 "abcde"))
    by (vm_compute; exact I).
  assert (H2 : stored_metadata (fs world0) (filenameForID store0 "abcde") "hmac" ""
               = "") by (vm_compute; reflexivity).
  assert (H3 : 0 < 4) by lia.
  assert (H4 : length (concat [secret]) < 10) by (vm_compute; lia).
  repeat split; try assumption.
  exact (round_trip_plain store0 "abcde" (Some key32) [secret] 10 4 world0
           H1 H2 H3 H4).
Defined.

Lemma overwrite_keeps_tag_witness :
  (exists f, fs world_encrypted !! filenameForID store0 "abcde" = Some f
             /\ f_writable f = true)
  /\ stored_metadata (fs world_encrypted) (filenameForID store0 "abcde") "hmac" ""
     ≠ ""
  /\ exists w' f',
       round_trip store0 "abcde" None None [secret] 10 4 world_encrypted
       = Done (None, Some (PasteEncryptedError "abcde")) w'
       /\ fs w' !! filenameForID store0 "abcde" = Some f'
       /\ f_data f' = concat [secret].
Proof.
  split; [exact writable_world_encrypted|]. split; [exact tag_world_encrypted|].
  destruct writable_world_encrypted as (f & Hf & Hw).
  exact (overwrite_keeps_tag store0 "abcde" [secret] 10 4 world_encrypted f
           Hf Hw tag_world_encrypted).
Defined.

Lemma Save_then_Get_witness :
  heap world_encrypted !! 0 = Some paste_encrypted
  /\ Save store0 0 world_encrypted
     = Done None (world_of (Save store0 0 world_encrypted))
  /\ Encrypted paste_encrypted = true
  /\ constructMAC (list_byte_of_string (PasteID_String (ID paste_encrypted)))
       (bytes_of (encryptionKey paste_encrypted)) ≠ []
  /\ exists w2,
       Get store0 (ID paste_encrypted) (Some (repeat "255"%byte 32))
         (world_of (Save store0 0 world_encrypted))
       = Done (None, Some (PasteInvalidKeyError (ID paste_encrypted))) w2.
Proof.
  split; [exact heap_world_encrypted|]. split; [exact Save_world_encrypted|].
  split; [reflexivity|]. split; [apply MAC_nonempty|].
  exact (proj2 (Save_then_Get store0 0 paste_encrypted world_encrypted _
                  heap_world_encrypted Save_world_encrypted eq_refl
                  (MAC_nonempty _ _) DecodeString_EncodeToString)
           (repeat "255"%byte 32)).
Defined.

Lemma same_key_same_keystream_witness :
  valid_key_length (length key32)
  /\ creatable (fs world0) (filenameForID store0 "abcde")
  /\ creatable (fs world0) (filenameForID store0 "fghjk")
  /\ exists w1' w2' f1 f2,
       store_paste store0 "abcde" (Some key32) [secret] world0 = Done None w1'
       /\ store_paste store0 "fghjk" (Some key32) [list_byte_of_string "public"]
            world0 = Done None w2'
       /\ fs w1' !! filenameForID store0 "abcde" = Some f1
       /\ fs w2' !! filenameForID store0 "fghjk" = Some f2
       /\ length (f_data f1) = length (concat [secret])
       /\ length (f_data f2) = length (concat [list_byte_of_string "public"])
       /\ zip_with byte_xor (f_data f1) (f_data f2)
          = zip_with byte_xor (concat [secret])
              (concat [list_byte_of_string "public"]).
Proof.
  assert (H1 : valid_key_length (length key32)) by (right; right; reflexivity).
  assert (H2 : creatable (fs world0) (filenameForID store0 "abcde"))
    by (vm_compute; exact I).
  assert (H3 : creatable (fs world0) (filenameForID store0 "fghjk"))
    by (vm_compute; exact I).
  split; [exact H1|]. split; [exact H2|]. split; [exact H3|].
  exact (same_key_same_keystream store0 "abcde" "fghjk" key32 [secret]
           [list_byte_of_string "public"] world0 world0 H1 H2 H3).
Defined.

Lemma generatePasteID_injective_witness :
  rand_contract (rand_fixed "001" "002" "003")
  /\ generatePasteID (rand_fixed "001" "002" "003") = ("aebag", None)
  /\ (rand_fixed "001" "002" "003" (repeat "000"%byte 3)).1.2
     = (rand_fixed "001" "002" "003" (repeat "000"%byte 3)).1.2.
Proof.
  assert (H1 := rand_fixed_contract "001" "002" "003").
  assert (H2 : generatePasteID (rand_fixed "001" "002" "003") = ("aebag", None))
    by reflexivity.
  split; [exact H1|]. split; [exact H2|].
  exact (generatePasteID_injective _ _ "aebag" H1 H1 H2 H2).
Defined.

Lemma Get_keyless_world_encrypted :
  Get store0 "abcde" None world_encrypted
  = Done (Some 2, Some (PasteEncryptedError "abcde"))
      (world_of (Get store0 "abcde" None world_encrypted)).
Proof. vm_compute. reflexivity. Qed.

Lemma Save_after_keyless_Get_witness :
  Get store0 "abcde" None world_encrypted
  = Done (Some 2, Some (PasteEncryptedError "abcde"))
      (world_of (Get store0 "abcde" None world_encrypted))
  /\ (exists f, fs world_encrypted !! filenameForID store0 "abcde" = Some f
                /\ f_writable f = true)
  /\ exists w2,
       Paste_Save 2 (world_of (Get store0 "abcde" None world_encrypted))
       = Done None w2
       /\ getMetadata (filenameForID store0 "abcde") "hmac" "" w2
          = Done (base32.EncodeToString base32Encoder
                    (constructMAC (list_byte_of_string (PasteID_String "abcde"))
                       [])) w2.
Proof.
  split; [exact Get_keyless_world_encrypted|].
  split; [exact writable_world_encrypted|].
  exact (Save_after_keyless_Get store0 "abcde" world_encrypted 2 _
           Get_keyless_world_encrypted writable_world_encrypted).
Defined.

End ConcreteCoverage.
